(** * main.py: Autogen (AgentChat) + Gemini command-line chat client

    A shallow embedding of [src/main.py] and the properties of its
    configuration loader, its two execution modes and its dispatcher.

    Conventions of the embedding.
    - A Python [str] is a [string]; a character is read as the code point
      of the same number, so the strings of the model are the Latin-1
      strings.  On that range [str.isspace] and [str.lower] are the finite
      tables written out below.
    - [os.environ] (after [load_dotenv()]) is a [gmap string string].
    - The agent framework (autogen) is not part of this program: it is a
      parameter, the record [Framework].  Each of its three entry points
      may return or raise.
    - Effects are a small monad: a counter of object identities, an
      exception or a result, and the list of observable events emitted. *)

From Stdlib Require Import ZArith NArith String Ascii List Bool Lia.
From stdpp Require Import base option gmap strings list.

Local Open Scope string_scope.
Local Open Scope list_scope.
Local Open Scope Z_scope.

(** ** Python strings *)

Module PyStr.

Definition code (c : ascii) : N := N_of_ascii c.

Definition in_range (lo hi : N) (c : ascii) : bool :=
  ((lo <=? code c) && (code c <=? hi))%N.

(** [str.isspace] on one character, code points below 256:
    TAB LF VT FF CR, FS GS RS US, SPACE, NEL, NBSP. *)
Definition isspace (c : ascii) : bool :=
  in_range 9 13 c || in_range 28 31 c || in_range 32 32 c
  || in_range 133 133 c || in_range 160 160 c.

(** [str.lower] on one character, code points below 256: A-Z and the
    capital letters of U+00C0..U+00DE (U+00D7, the multiplication sign,
    excepted) move up by 32. *)
Definition lower_char (c : ascii) : ascii :=
  if in_range 65 90 c
     || (in_range 192 222 c && negb (in_range 215 215 c))
  then ascii_of_N (code c + 32)
  else c.

Fixpoint lower (s : string) : string :=
  match s with
  | EmptyString => EmptyString
  | String c s' => String (lower_char c) (lower s')
  end.

(** Removal of the leading characters that satisfy [p]. *)
Fixpoint lstrip_by (p : ascii -> bool) (s : string) : string :=
  match s with
  | EmptyString => EmptyString
  | String c s' => if p c then lstrip_by p s' else s
  end.

(** Removal of the trailing characters that satisfy [p]. *)
Fixpoint rstrip_by (p : ascii -> bool) (s : string) : string :=
  match s with
  | EmptyString => EmptyString
  | String c s' =>
      match rstrip_by p s' with
      | EmptyString => if p c then EmptyString else String c EmptyString
      | r => String c r
      end
  end.

(** [s.strip()] *)
Definition strip (s : string) : string :=
  rstrip_by isspace (lstrip_by isspace s).

Fixpoint mem_char (c : ascii) (chars : string) : bool :=
  match chars with
  | EmptyString => false
  | String d chars' => Ascii.eqb c d || mem_char c chars'
  end.

(** [s.rstrip(chars)] *)
Definition rstrip (chars : string) (s : string) : string :=
  rstrip_by (fun c => mem_char c chars) s.

(** Truth value of a string: [bool(s)], false exactly on the empty
    string. *)
Definition truthy (s : string) : bool :=
  match s with
  | EmptyString => false
  | String _ _ => true
  end.

(** [a or b] on strings. *)
Definition or_else (a : option string) (b : string) : string :=
  match a with
  | Some s => if truthy s then s else b
  | None => b
  end.

Definition newline : string := String "010"%char EmptyString.
Definition dquote : string := String "034"%char EmptyString.

(** Every character of [s] satisfies [p]. *)
Fixpoint all_chars (p : ascii -> bool) (s : string) : bool :=
  match s with
  | EmptyString => true
  | String c s' => p c && all_chars p s'
  end.

(** [needle in s] *)
Fixpoint contains (needle s : string) : bool :=
  String.prefix needle s
  || match s with
     | EmptyString => false
     | String _ s' => contains needle s'
     end.

End PyStr.

(** ** Python's [int(str)] and [float(str)] *)

Module PyNum.
Import PyStr.

(** The float a string denotes.  [F_dec neg m e] stands for the binary64
    number nearest to [(-1)^neg * m * 10^e]; the rounding itself is left
    to the interpreter and is not part of the model. *)
Inductive pyfloat : Type :=
| F_inf (neg : bool)
| F_nan (neg : bool)
| F_dec (neg : bool) (mant : N) (exp10 : Z).

(** [_PyUnicode_TransformDecimalAndSpaceToASCII]: ASCII is kept, another
    whitespace character becomes a space, and any other character (none
    is a decimal digit below U+0100) becomes '?'. *)
Definition to_ascii_char (c : ascii) : ascii :=
  if (code c <? 128)%N then c
  else if isspace c then " "%char else "?"%char.

Fixpoint to_ascii (s : string) : string :=
  match s with
  | EmptyString => EmptyString
  | String c s' => String (to_ascii_char c) (to_ascii s')
  end.

(** [Py_ISSPACE]: the C locale's whitespace. *)
Definition c_isspace (c : ascii) : bool :=
  in_range 9 13 c || in_range 32 32 c.

Definition is_digit (c : ascii) : bool := in_range 48 57 c.

Definition digit_val (c : ascii) : N := (code c - 48)%N.

Definition is_underscore (c : ascii) : bool := Ascii.eqb c "_"%char.

(** An optional sign; the flag is true for '-'. *)
Definition take_sign (s : string) : bool * string :=
  match s with
  | String "-"%char s' => (true, s')
  | String "+"%char s' => (false, s')
  | _ => (false, s)
  end.

(** The digit scan of [PyLong_FromString] for base 10: digits with
    single underscores between them.  [prev] is the previous character,
    [acc] the value and [n] the number of digits read so far.  The scan
    stops at the first character that is neither; a doubled or a
    trailing underscore is an error. *)
Fixpoint scan_int (prev : ascii) (acc : N) (n : nat) (s : string)
  : option (N * nat * string) :=
  match s with
  | String c s' =>
      if is_digit c then scan_int c (10 * acc + digit_val c)%N (S n) s'
      else if is_underscore c then
        if is_underscore prev then None else scan_int c acc n s'
      else if is_underscore prev then None else Some (acc, n, s)
  | EmptyString =>
      if is_underscore prev then None else Some (acc, n, s)
  end.

(** [sys.int_info.default_max_str_digits] *)
Definition max_str_digits : nat := 4300.

(** [int(s)]: [None] stands for [ValueError]. *)
Definition py_int (s : string) : option Z :=
  let s1 := lstrip_by c_isspace (to_ascii s) in
  let '(neg, s2) := take_sign s1 in
  match s2 with
  | String "_"%char _ => None
  | _ =>
      match scan_int "000"%char 0%N 0%nat s2 with
      | Some (v, n, rest) =>
          if (n =? 0)%nat then None
          else if (max_str_digits <? n)%nat then None
          else
            match lstrip_by c_isspace rest with
            | EmptyString => Some (if neg then - Z.of_N v else Z.of_N v)
            | String _ _ => None
            end
      | None => None
      end
  end.

(** The underscore rule of [_Py_string_to_number_with_underscores]: an
    underscore stands between two digits.  The result is the string
    without its underscores. *)
Fixpoint drop_underscores (prev : ascii) (s : string) : option string :=
  match s with
  | EmptyString => if is_underscore prev then None else Some EmptyString
  | String c s' =>
      if is_underscore c then
        if is_digit prev then drop_underscores c s' else None
      else if is_underscore prev && negb (is_digit c) then None
      else
        match drop_underscores c s' with
        | Some r => Some (String c r)
        | None => None
        end
  end.

(** A run of digits: its value, its length and what follows. *)
Fixpoint scan_digits (acc : N) (n : nat) (s : string) : N * nat * string :=
  match s with
  | String c s' =>
      if is_digit c then scan_digits (10 * acc + digit_val c)%N (S n) s'
      else (acc, n, s)
  | EmptyString => (acc, n, s)
  end.

(** [_Py_parse_inf_or_nan] after the sign; the whole rest must match. *)
Definition parse_inf_or_nan (neg : bool) (s : string) : option pyfloat :=
  let l := lower s in
  if String.eqb l "inf" || String.eqb l "infinity" then Some (F_inf neg)
  else if String.eqb l "nan" then Some (F_nan neg)
  else None.

(** The exponent part: empty, or [e] or [E], an optional sign and at
    least one digit, up to the end of the string. *)
Definition parse_exponent (s : string) : option Z :=
  match s with
  | EmptyString => Some 0
  | String c s' =>
      if Ascii.eqb c "e"%char || Ascii.eqb c "E"%char then
        let '(eneg, s2) := take_sign s' in
        match scan_digits 0%N 0%nat s2 with
        | (v, n, EmptyString) =>
            if (n =? 0)%nat then None
            else Some (if eneg then - Z.of_N v else Z.of_N v)
        | (_, _, String _ _) => None
        end
      else None
  end.

(** The decimal grammar of [_Py_dg_strtod] after the sign: digits, an
    optional point and digits, at least one digit in all, then the
    exponent. *)
Definition parse_decimal (neg : bool) (s : string) : option pyfloat :=
  let '(ip, ni, s1) := scan_digits 0%N 0%nat s in
  let '(m, nf, s2) :=
    match s1 with
    | String "."%char s1' =>
        let '(m, nt, s2) := scan_digits ip ni s1' in (m, (nt - ni)%nat, s2)
    | _ => (ip, 0%nat, s1)
    end in
  if ((ni + nf) =? 0)%nat then None
  else
    match parse_exponent s2 with
    | Some e => Some (F_dec neg m (e - Z.of_nat nf))
    | None => None
    end.

(** [float(s)]: [None] stands for [ValueError]. *)
Definition py_float (s : string) : option pyfloat :=
  let s1 := rstrip_by c_isspace (lstrip_by c_isspace (to_ascii s)) in
  match drop_underscores "000"%char s1 with
  | Some s2 =>
      let '(neg, s3) := take_sign s2 in
      match parse_inf_or_nan neg s3 with
      | Some f => Some f
      | None => parse_decimal neg s3
      end
  | None => None
  end.

End PyNum.

(** ** Configuration: the module-level globals of main.py (lines 25-44)

    [load_dotenv()] only adds variables to the environment; [env] is the
    environment after it.  Each global is a function of [env]. *)

Module Config.
Import PyStr PyNum.

(** [os.getenv(key)] *)
Definition getenv (env : gmap string string) (key : string) : option string :=
  env !! key.

(** [os.getenv(key, dflt)] *)
Definition getenv_or (env : gmap string string) (key dflt : string) : string :=
  default dflt (env !! key).

Definition default_model : string := "gemini-2.0-flash".

Definition default_base_url : string :=
  "https://generativelanguage.googleapis.com/v1beta/openai".

Definition default_system_prompt : string :=
  "You are a concise, helpful chatbot for BotCampus.ai. "
  +:+ "Answer briefly, use plain English, and include code blocks when helpful.".

(** The float literal [0.3]. *)
Definition default_temperature : pyfloat := F_dec false 3 (-1).

Definition default_max_tokens : Z := 1024.

Definition GOOGLE_API_KEY (env : gmap string string) : string :=
  strip (getenv_or env "GOOGLE_API_KEY" "").

Definition MODEL_NAME (env : gmap string string) : string :=
  strip (or_else (getenv env "GOOGLE_MODEL") default_model).

Definition BASE_URL (env : gmap string string) : string :=
  rstrip "/" (or_else (getenv env "GOOGLE_OPENAI_COMPAT_BASE_URL")
                      default_base_url).

Definition SYSTEM_PROMPT (env : gmap string string) : string :=
  or_else (getenv env "SYSTEM_PROMPT") default_system_prompt.

(** [try: float(...) except ValueError: 0.3] *)
Definition TEMPERATURE (env : gmap string string) : pyfloat :=
  match py_float (getenv_or env "TEMPERATURE" "0.3") with
  | Some f => f
  | None => default_temperature
  end.

(** [try: int(...) except ValueError: 1024] *)
Definition MAX_TOKENS (env : gmap string string) : Z :=
  match py_int (getenv_or env "MAX_TOKENS" "1024") with
  | Some n => n
  | None => default_max_tokens
  end.

(** The resolution rule in the words of the specification: the
    environment value trimmed of surrounding whitespace when it is
    present and not empty, the default otherwise. *)
Definition spec_resolve (env : gmap string string) (key dflt : string) : string :=
  match env !! key with
  | Some v => if truthy v then strip v else dflt
  | None => dflt
  end.

End Config.

(** ** The agent framework, the events and the effect monad *)

(** What [assistant.run(...)] returns: an object that may have a
    [content] attribute, and its [str()]. *)
Record Result : Type := mkResult {
  content : option string;
  str : string
}.

(** The collaborator: the two autogen packages.  [inl text] stands for an
    exception (a subclass of [Exception]) raised by the call, [text] being
    its [str()]. *)
Record Framework : Type := mkFramework {
  (** the outcome of the two [import] statements *)
  fw_import : option string;
  fw_client : Type;
  fw_agent : Type;
  (** [OpenAIChatCompletionClient(api_key=, model=, base_url=)] *)
  OpenAIChatCompletionClient : string -> string -> string -> string + fw_client;
  (** [AssistantAgent(name=, model_client=, system_message=)] *)
  AssistantAgent : string -> fw_client -> string -> string + fw_agent;
  (** [agent.run(task)]: the result or the exception, and the agent
      afterwards *)
  agent_run : fw_agent -> string -> (string + Result) * fw_agent
}.

(** The functions of main.py. *)
Inductive Fn : Type :=
| Fbuild_model_client | Fbuild_assistant | Fone_shot | Finteractive_loop | Fmain.

(** Observable events of a run, in order. *)
Inductive Event : Type :=
| Call (f : Fn)                                  (* a function is entered *)
| Stdout (text : string)                         (* text written to stdout *)
| Stderr (text : string)                         (* text written to stderr *)
| Traceback (text : string)                      (* an uncaught exception *)
| NewClient (api_key model base_url : string)    (* a model client is made *)
| NewAgent (id : nat) (name system_message : string)  (* an agent is made *)
| Run (id : nat) (task : string).                (* a turn is submitted *)

(** The argument of [SystemExit]. *)
Inductive exit_arg : Type :=
| ExitStatus (n : Z)
| ExitMessage (msg : string).

Inductive exn : Type :=
| SystemExit (arg : exit_arg)
| EOFError
| KeyboardInterrupt
| FrameworkError (text : string).

Inductive Res (A : Type) : Type :=
| Ret (a : A)
| Raise (e : exn).
Arguments Ret {A} a.
Arguments Raise {A} e.

(** A computation reads the counter of object identities and gives a
    result or an exception, the counter afterwards and the events it
    emitted. *)
Definition M (A : Type) : Type := nat -> Res A * nat * list Event.

Definition ret {A} (a : A) : M A := fun n => (Ret a, n, []).

Definition bind {A B} (m : M A) (k : A -> M B) : M B :=
  fun n =>
    match m n with
    | (Ret a, n1, evs) =>
        let '(r, n2, evs') := k a n1 in (r, n2, evs ++ evs')
    | (Raise e, n1, evs) => (Raise e, n1, evs)
    end.

Definition raise {A} (e : exn) : M A := fun n => (Raise e, n, []).

Definition emit (ev : Event) : M unit := fun n => (Ret tt, n, [ev]).

(** A new object identity. *)
Definition fresh : M nat := fun n => (Ret n, S n, []).

(** [try: m  except (the exceptions of catches): h] *)
Definition try_except {A} (m : M A) (catches : exn -> bool) (h : M A) : M A :=
  fun n =>
    match m n with
    | (Raise e, n1, evs) =>
        if catches e
        then let '(r, n2, evs') := h n1 in (r, n2, evs ++ evs')
        else (Raise e, n1, evs)
    | ok => ok
    end.

Notation "x <- m ;; k" := (bind m (fun x => k))
  (at level 100, m at next level, right associativity).
Notation "m ;;; k" := (bind m (fun _ => k))
  (at level 100, right associativity).

(** [print(s)] *)
Definition print (s : string) : M unit := emit (Stdout (s +:+ PyStr.newline)).

(** What standard input holds: lines, and interrupts (Ctrl-C) that arrive
    while a line is awaited.  The end of the list is the end of input. *)
Inductive StdinEvent : Type :=
| Line (text : string)
| CtrlC.

(** [input(prompt)] when [next] is what standard input gives next. *)
Definition input (prompt : string) (next : option StdinEvent) : M string :=
  emit (Stdout prompt) ;;;
  match next with
  | Some (Line text) => ret text
  | Some CtrlC => raise KeyboardInterrupt
  | None => raise EOFError
  end.

(** The parsed command line: [args.interactive] and [args.prompt]. *)
Record Namespace : Type := mkArgs {
  interactive : bool;
  prompt : string
}.

(** How the interpreter ends. *)
Record Outcome : Type := mkOutcome {
  events : list Event;
  exit_status : Z
}.

(** ** The program *)

Section Program.
Import PyStr Config.

Context (F : Framework).

(** The variable [assistant]: the identity of the agent object and the
    object. *)
Record Agent : Type := mkAgent {
  agent_id : nat;
  agent_obj : fw_agent F
}.

Definition build_model_client (env : gmap string string) : M (fw_client F) :=
  emit (Call Fbuild_model_client) ;;;
  match OpenAIChatCompletionClient F
          (GOOGLE_API_KEY env) (MODEL_NAME env) (BASE_URL env) with
  | inl text => raise (FrameworkError text)
  | inr client =>
      emit (NewClient (GOOGLE_API_KEY env) (MODEL_NAME env) (BASE_URL env)) ;;;
      ret client
  end.

Definition build_assistant (env : gmap string string) : M Agent :=
  emit (Call Fbuild_assistant) ;;;
  model_client <- build_model_client env ;;
  match AssistantAgent F "assistant" model_client (SYSTEM_PROMPT env) with
  | inl text => raise (FrameworkError text)
  | inr obj =>
      id <- fresh ;;
      emit (NewAgent id "assistant" (SYSTEM_PROMPT env)) ;;;
      ret (mkAgent id obj)
  end.

(** [assistant.run(task)]: the result, and the variable afterwards (the
    same object, in its new state). *)
Definition run (assistant : Agent) (task : string) : M (Result * Agent) :=
  emit (Run (agent_id assistant) task) ;;;
  match agent_run F (agent_obj assistant) task with
  | (inl text, _) => raise (FrameworkError text)
  | (inr result, obj') => ret (result, mkAgent (agent_id assistant) obj')
  end.

(** [getattr(result, "content", str(result))] *)
Definition getattr_content (result : Result) : string :=
  match content result with
  | Some c => c
  | None => str result
  end.

Definition one_shot (env : gmap string string) (prompt : string) : M string :=
  emit (Call Fone_shot) ;;;
  assistant <- build_assistant env ;;
  ra <- run assistant prompt ;;
  ret (getattr_content (fst ra)).

Definition is_eof_or_interrupt (e : exn) : bool :=
  match e with
  | EOFError | KeyboardInterrupt => true
  | _ => false
  end.

(** [user_input.lower() in {"exit", "quit"}] *)
Definition is_sentinel (user_input : string) : bool :=
  String.eqb (lower user_input) "exit" || String.eqb (lower user_input) "quit".

(** One pass through the body of [while True]: [next] is what standard
    input gives, [continue] the next pass; not calling it is [break]. *)
Definition loop_body (assistant : Agent) (next : option StdinEvent)
           (continue : Agent -> M unit) : M unit :=
  read <- try_except
            (line <- input (newline +:+ "You: ") next ;; ret (Some (strip line)))
            is_eof_or_interrupt
            (print (newline +:+ "Exiting.") ;;; ret None) ;;
  match read with
  | None => ret tt
  | Some user_input =>
      if is_sentinel user_input then print "Goodbye."
      else
        ra <- run assistant user_input ;;
        let reply := getattr_content (fst ra) in
        print (newline +:+ "Assistant: " +:+ reply) ;;;
        continue (snd ra)
  end.

(** The loop of [interactive_loop], by recursion on what standard input
    still holds.  At the end of input [input] raises and the body
    breaks. *)
Fixpoint interactive_while (assistant : Agent) (stdin : list StdinEvent)
  : M unit :=
  match stdin with
  | [] => loop_body assistant None (fun _ => ret tt)
  | ev :: rest =>
      loop_body assistant (Some ev) (fun a => interactive_while a rest)
  end.

Definition banner : string :=
  "Interactive chat started. Type 'exit' or 'quit' to leave.".

Definition interactive_loop (env : gmap string string)
           (stdin : list StdinEvent) : M unit :=
  emit (Call Finteractive_loop) ;;;
  assistant <- build_assistant env ;;
  print banner ;;;
  interactive_while assistant stdin.

Definition usage : list string :=
  [ "No mode selected." +:+ newline;
    "Examples:";
    "  python main.py --interactive";
    "  python main.py --prompt " +:+ dquote
      +:+ "Explain RAG in simple terms." +:+ dquote ].

Fixpoint print_all (lines : list string) : M unit :=
  match lines with
  | [] => ret tt
  | l :: ls => print l ;;; print_all ls
  end.

(** [main()], after [parser.parse_args()] has given [args]. *)
Definition main (env : gmap string string) (args : Namespace)
           (stdin : list StdinEvent) : M unit :=
  emit (Call Fmain) ;;;
  if interactive args then interactive_loop env stdin
  else if truthy (prompt args) then
    reply <- one_shot env (prompt args) ;;
    print reply
  else
    print_all usage ;;;
    raise (SystemExit (ExitStatus 1)).

Definition missing_key_message : string :=
  "ERROR: Missing GOOGLE_API_KEY in .env".

Definition import_error_message (text : string) : string :=
  "Autogen packages not found. Did you run 'pip install -r requirements.txt'?"
  +:+ newline +:+ "Import error: " +:+ text.

(** Lines 50-58: the imports, any exception turned into [SystemExit]. *)
Definition import_autogen : M unit :=
  match fw_import F with
  | None => ret tt
  | Some text => raise (SystemExit (ExitMessage (import_error_message text)))
  end.

(** The module, top to bottom, run as a script: the globals, the check
    of the key, the imports, and [main()]. *)
Definition script (env : gmap string string) (args : Namespace)
           (stdin : list StdinEvent) : M unit :=
  if negb (truthy (GOOGLE_API_KEY env))
  then raise (SystemExit (ExitMessage missing_key_message))
  else
    import_autogen ;;;
    main env args stdin.

(** The interpreter around the script: what an exception that reaches
    the top does to standard error and to the exit status. *)
Definition interpreter_exit (x : Res unit * nat * list Event) : Outcome :=
  match x with
  | (Ret _, _, evs) => mkOutcome evs 0
  | (Raise (SystemExit (ExitStatus n)), _, evs) => mkOutcome evs (n mod 256)
  | (Raise (SystemExit (ExitMessage msg)), _, evs) =>
      mkOutcome (evs ++ [Stderr (msg +:+ newline)]) 1
  | (Raise (FrameworkError text), _, evs) =>
      mkOutcome (evs ++ [Traceback text]) 1
  | (Raise EOFError, _, evs) => mkOutcome (evs ++ [Traceback "EOFError"]) 1
  | (Raise KeyboardInterrupt, _, evs) =>
      mkOutcome (evs ++ [Traceback "KeyboardInterrupt"]) 130
  end.

(** [python main.py ...] *)
Definition run_script (env : gmap string string) (args : Namespace)
           (stdin : list StdinEvent) : Outcome :=
  interpreter_exit (script env args stdin 0%nat).

(** The framework's two constructors accept the configuration and give
    the agent object [obj]. *)
Definition builds (env : gmap string string) (obj : fw_agent F) : Prop :=
  exists client,
    OpenAIChatCompletionClient F
      (GOOGLE_API_KEY env) (MODEL_NAME env) (BASE_URL env) = inr client
    /\ AssistantAgent F "assistant" client (SYSTEM_PROMPT env) = inr obj.

(** The agent answers the tasks one after the other: no call of [run]
    raises. *)
Fixpoint answers (obj : fw_agent F) (tasks : list string) : bool :=
  match tasks with
  | [] => true
  | task :: tasks' =>
      match agent_run F obj task with
      | (inr _, obj') => answers obj' tasks'
      | (inl _, _) => false
      end
  end.

End Program.

Arguments agent_id {F} _.
Arguments agent_obj {F} _.
Arguments mkAgent {F} _ _.

(** ** Reading a trace *)

(** The execution modes entered, in order. *)
Fixpoint modes_run (evs : list Event) : list Fn :=
  match evs with
  | [] => []
  | Call Fone_shot :: evs' => Fone_shot :: modes_run evs'
  | Call Finteractive_loop :: evs' => Finteractive_loop :: modes_run evs'
  | _ :: evs' => modes_run evs'
  end.

(** The functions entered, in order. *)
Fixpoint calls (evs : list Event) : list Fn :=
  match evs with
  | [] => []
  | Call f :: evs' => f :: calls evs'
  | _ :: evs' => calls evs'
  end.

(** The identities of the agents constructed, in order. *)
Fixpoint new_agents (evs : list Event) : list nat :=
  match evs with
  | [] => []
  | NewAgent id _ _ :: evs' => id :: new_agents evs'
  | _ :: evs' => new_agents evs'
  end.

(** The turns submitted, in order: the agent and the text. *)
Fixpoint runs (evs : list Event) : list (nat * string) :=
  match evs with
  | [] => []
  | Run id task :: evs' => (id, task) :: runs evs'
  | _ :: evs' => runs evs'
  end.

(** What was written to standard output, in order. *)
Fixpoint stdout (evs : list Event) : list string :=
  match evs with
  | [] => []
  | Stdout text :: evs' => text :: stdout evs'
  | _ :: evs' => stdout evs'
  end.

(** The events of one turn of the interactive loop. *)
Definition turn_events (id : nat) (user_input reply : string) : list Event :=
  [ Stdout (PyStr.newline +:+ "You: ");
    Run id user_input;
    Stdout (PyStr.newline +:+ "Assistant: " +:+ reply +:+ PyStr.newline) ].

(** The events of leaving the loop at the end of input or on an
    interrupt. *)
Definition exit_events : list Event :=
  [ Stdout (PyStr.newline +:+ "You: ");
    Stdout (PyStr.newline +:+ "Exiting." +:+ PyStr.newline) ].

(** The events of leaving the loop on a sentinel. *)
Definition goodbye_events : list Event :=
  [ Stdout (PyStr.newline +:+ "You: ");
    Stdout ("Goodbye." +:+ PyStr.newline) ].

(** The events of building the client and the agent. *)
Definition build_events (env : gmap string string) (id : nat) : list Event :=
  [ Call Fbuild_assistant;
    Call Fbuild_model_client;
    NewClient (Config.GOOGLE_API_KEY env) (Config.MODEL_NAME env)
              (Config.BASE_URL env);
    NewAgent id "assistant" (Config.SYSTEM_PROMPT env) ].

(** [evs] put before the events of a computation's outcome. *)
Definition after {A} (evs : list Event) (x : Res A * nat * list Event)
  : Res A * nat * list Event :=
  let '(r, n, evs') := x in (r, n, evs ++ evs').

(** ** Two frameworks to run the program on *)

(** Every result has a [content]: the task, echoed.  The agent counts its
    turns. *)
Definition echo_fw : Framework :=
  {| fw_import := None;
     fw_client := unit;
     fw_agent := nat;
     OpenAIChatCompletionClient := fun _ _ _ => inr tt;
     AssistantAgent := fun _ _ _ => inr 0%nat;
     agent_run := fun turns task =>
       (inr (mkResult (Some ("echo: " +:+ task)) "TaskResult"), S turns) |}.

(** No result has a [content]; the second turn raises. *)
Definition bare_fw : Framework :=
  {| fw_import := None;
     fw_client := unit;
     fw_agent := nat;
     OpenAIChatCompletionClient := fun _ _ _ => inr tt;
     AssistantAgent := fun _ _ _ => inr 0%nat;
     agent_run := fun turns task =>
       match turns with
       | O => (inr (mkResult None ("TaskResult(" +:+ task +:+ ")")), S turns)
       | S _ => (inl "RuntimeError: connection lost", S turns)
       end |}.

(** Environments to run it in. *)
Definition key_env : gmap string string := {[ "GOOGLE_API_KEY" := "k-123" ]}.

Definition blank_key_env : gmap string string := {[ "GOOGLE_API_KEY" := "   " ]}.

Definition padded_env : gmap string string :=
  <["SYSTEM_PROMPT" := " Be brief. "]>
    (<["GOOGLE_OPENAI_COMPAT_BASE_URL" := " http://localhost:8000/v1/ "]> key_env).

Definition slash_env : gmap string string :=
  <["GOOGLE_OPENAI_COMPAT_BASE_URL" := "http://localhost:8000/v1/"]> key_env.

Definition zero_tokens_env : gmap string string :=
  <["MAX_TOKENS" := "0"]> key_env.

Definition negative_tokens_env : gmap string string :=
  <["MAX_TOKENS" := " -5 "]> key_env.

Definition lenient_env : gmap string string :=
  <["TEMPERATURE" := "warm"]> (<["MAX_TOKENS" := "12.5"]> key_env).

(** ** More ways to read strings, agents and traces *)

Definition first_char (s : string) : option ascii :=
  match s with
  | EmptyString => None
  | String c _ => Some c
  end.

Fixpoint last_char (s : string) : option ascii :=
  match s with
  | EmptyString => None
  | String c EmptyString => Some c
  | String _ s' => last_char s'
  end.

(** [c] is the lower-case ASCII letter [w] or its capital. *)
Definition letter_or_capital (w c : ascii) : bool :=
  Ascii.eqb c w || (PyStr.code c + 32 =? PyStr.code w)%N.

(** [s] is [word] up to the case of its letters. *)
Fixpoint case_variant (word s : string) : bool :=
  match word, s with
  | EmptyString, EmptyString => true
  | String w word', String c s' => letter_or_capital w c && case_variant word' s'
  | _, _ => false
  end.

(** The agent object after the tasks, submitted one after the other. *)
Fixpoint agent_after (F : Framework) (obj : fw_agent F) (tasks : list string)
  : fw_agent F :=
  match tasks with
  | [] => obj
  | task :: tasks' => agent_after F (snd (agent_run F obj task)) tasks'
  end.

(** The model clients made, in order: key, model and base URL. *)
Fixpoint clients (evs : list Event) : list (string * string * string) :=
  match evs with
  | [] => []
  | NewClient k m u :: evs' => (k, m, u) :: clients evs'
  | _ :: evs' => clients evs'
  end.

(** The agents made, in order: name and system message. *)
Fixpoint agents_made (evs : list Event) : list (string * string) :=
  match evs with
  | [] => []
  | NewAgent _ name sys :: evs' => (name, sys) :: agents_made evs'
  | _ :: evs' => agents_made evs'
  end.

(** What went to standard error, messages and tracebacks, in order. *)
Fixpoint errors (evs : list Event) : list Event :=
  match evs with
  | [] => []
  | Stderr text :: evs' => Stderr text :: errors evs'
  | Traceback text :: evs' => Traceback text :: errors evs'
  | _ :: evs' => errors evs'
  end.

(** The shape of what the interactive loop emits with the agent [id],
    and how it ends: turns, each a prompt, the submission and the reply,
    and then the farewell, the exit notice, or a submission that
    raises. *)
Inductive session_trace (id : nat) : list Event -> Res unit -> Prop :=
| session_goodbye : session_trace id goodbye_events (Ret tt)
| session_exit : session_trace id exit_events (Ret tt)
| session_raise (task text : string) :
    session_trace id [Stdout (PyStr.newline +:+ "You: "); Run id task]
                  (Raise (FrameworkError text))
| session_turn (task reply : string) (evs : list Event) (res : Res unit) :
    session_trace id evs res ->
    session_trace id (turn_events id task reply ++ evs) res.

(** The mode the arguments select, when they select one. *)
Definition selected_mode (args : Namespace) : Fn :=
  if interactive args then Finteractive_loop else Fone_shot.

(** The ways a run of the script can go, from the top of the module
    down: no key, no packages, no mode, a constructor that raises, an
    interactive session that ends or dies, a one-shot turn that raises or
    is answered. *)
Inductive run_case (F : Framework) (env : gmap string string)
          (args : Namespace) : Outcome -> Prop :=
| run_no_key :
    Config.GOOGLE_API_KEY env = "" ->
    run_case F env args
      (mkOutcome [Stderr (missing_key_message +:+ PyStr.newline)] 1)
| run_no_packages (text : string) :
    Config.GOOGLE_API_KEY env <> "" ->
    fw_import F = Some text ->
    run_case F env args
      (mkOutcome [Stderr (import_error_message text +:+ PyStr.newline)] 1)
| run_usage :
    Config.GOOGLE_API_KEY env <> "" ->
    fw_import F = None ->
    interactive args = false ->
    prompt args = "" ->
    run_case F env args
      (mkOutcome (Call Fmain
                  :: map (fun l => Stdout (l +:+ PyStr.newline)) usage) 1)
| run_client_refused (text : string) :
    Config.GOOGLE_API_KEY env <> "" ->
    fw_import F = None ->
    interactive args = true \/ prompt args <> "" ->
    OpenAIChatCompletionClient F (Config.GOOGLE_API_KEY env)
      (Config.MODEL_NAME env) (Config.BASE_URL env) = inl text ->
    run_case F env args
      (mkOutcome [Call Fmain; Call (selected_mode args);
                  Call Fbuild_assistant; Call Fbuild_model_client;
                  Traceback text] 1)
| run_agent_refused (client : fw_client F) (text : string) :
    Config.GOOGLE_API_KEY env <> "" ->
    fw_import F = None ->
    interactive args = true \/ prompt args <> "" ->
    OpenAIChatCompletionClient F (Config.GOOGLE_API_KEY env)
      (Config.MODEL_NAME env) (Config.BASE_URL env) = inr client ->
    AssistantAgent F "assistant" client (Config.SYSTEM_PROMPT env) = inl text ->
    run_case F env args
      (mkOutcome [Call Fmain; Call (selected_mode args);
                  Call Fbuild_assistant; Call Fbuild_model_client;
                  NewClient (Config.GOOGLE_API_KEY env) (Config.MODEL_NAME env)
                            (Config.BASE_URL env);
                  Traceback text] 1)
| run_session_ends (obj : fw_agent F) (evs : list Event) :
    Config.GOOGLE_API_KEY env <> "" ->
    fw_import F = None ->
    interactive args = true ->
    builds F env obj ->
    session_trace 0 evs (Ret tt) ->
    run_case F env args
      (mkOutcome ([Call Fmain; Call Finteractive_loop] ++ build_events env 0
                  ++ [Stdout (banner +:+ PyStr.newline)] ++ evs) 0)
| run_session_dies (obj : fw_agent F) (evs : list Event) (text : string) :
    Config.GOOGLE_API_KEY env <> "" ->
    fw_import F = None ->
    interactive args = true ->
    builds F env obj ->
    session_trace 0 evs (Raise (FrameworkError text)) ->
    run_case F env args
      (mkOutcome ([Call Fmain; Call Finteractive_loop] ++ build_events env 0
                  ++ [Stdout (banner +:+ PyStr.newline)] ++ evs
                  ++ [Traceback text]) 1)
| run_one_shot_raises (obj obj' : fw_agent F) (text : string) :
    Config.GOOGLE_API_KEY env <> "" ->
    fw_import F = None ->
    interactive args = false ->
    prompt args <> "" ->
    builds F env obj ->
    agent_run F obj (prompt args) = (inl text, obj') ->
    run_case F env args
      (mkOutcome ([Call Fmain; Call Fone_shot] ++ build_events env 0
                  ++ [Run 0%nat (prompt args); Traceback text]) 1)
| run_one_shot_answers (obj obj' : fw_agent F) (r : Result) :
    Config.GOOGLE_API_KEY env <> "" ->
    fw_import F = None ->
    interactive args = false ->
    prompt args <> "" ->
    builds F env obj ->
    agent_run F obj (prompt args) = (inr r, obj') ->
    run_case F env args
      (mkOutcome ([Call Fmain; Call Fone_shot] ++ build_events env 0
                  ++ [Run 0%nat (prompt args);
                      Stdout (getattr_content r +:+ PyStr.newline)]) 0).

(** A framework that knows one model and refuses one system message. *)
Definition strict_fw : Framework :=
  {| fw_import := None;
     fw_client := string;
     fw_agent := nat;
     OpenAIChatCompletionClient := fun _ model _ =>
       if String.eqb model "gemini-2.0-flash" then inr model
       else inl "ValueError: model_info is required";
     AssistantAgent := fun _ _ sys =>
       if String.eqb sys "none" then inl "ValueError: system message refused"
       else inr 0%nat;
     agent_run := fun turns task =>
       (inr (mkResult (Some task) "TaskResult"), S turns) |}.

(** A framework whose packages are not installed. *)
Definition absent_fw : Framework :=
  {| fw_import := Some "No module named 'autogen_agentchat'";
     fw_client := unit;
     fw_agent := unit;
     OpenAIChatCompletionClient := fun _ _ _ => inr tt;
     AssistantAgent := fun _ _ _ => inr tt;
     agent_run := fun obj task => (inr (mkResult None "TaskResult"), obj) |}.

Definition other_model_env : gmap string string :=
  <["GOOGLE_MODEL" := "gemini-pro"]> key_env.

Definition refused_prompt_env : gmap string string :=
  <["SYSTEM_PROMPT" := "none"]> key_env.

Definition blank_values_env : gmap string string :=
  <["GOOGLE_MODEL" := "  "]>
    (<["GOOGLE_OPENAI_COMPAT_BASE_URL" := "//"]>
       (<["MAX_TOKENS" := " "]> (<["TEMPERATURE" := ""]> key_env))).

(** Unfolding of the monad's operations in a goal. *)
Ltac run_monad :=
  unfold loop_body, try_except, input, print, run, bind, ret, emit, raise,
    fresh; simpl.

(** * Properties *)

(** ** Strings *)

Section StringFacts.
Import PyStr.

Lemma truthy_true (s : string) : truthy s = true <-> s <> "".
Proof. destruct s; simpl; split; congruence. Qed.

Lemma truthy_false (s : string) : truthy s = false <-> s = "".
Proof. destruct s; simpl; split; congruence. Qed.

Lemma or_else_some (v d : string) :
  or_else (Some v) d = if truthy v then v else d.
Proof. reflexivity. Qed.

Lemma is_sentinel_iff (s : string) :
  is_sentinel s = true <-> lower s = "exit" \/ lower s = "quit".
Proof.
  unfold is_sentinel. rewrite orb_true_iff, !String.eqb_eq. tauto.
Qed.

Lemma is_sentinel_empty : is_sentinel "" = false.
Proof. reflexivity. Qed.

Lemma lstrip_by_all (p : ascii -> bool) (s : string) :
  all_chars p s = true -> lstrip_by p s = "".
Proof.
  induction s as [|c s IH]; simpl; [reflexivity|].
  intros H. apply andb_true_iff in H as [Hc Hs]. rewrite Hc. auto.
Qed.

Lemma rstrip_by_nonempty (p : ascii -> bool) (c : ascii) (s : string) :
  p c = false -> rstrip_by p (String c s) <> "".
Proof.
  intros Hc. simpl. destruct (rstrip_by p s); [rewrite Hc|]; discriminate.
Qed.

Lemma lstrip_by_head (p : ascii -> bool) (s : string) (c : ascii) (r : string) :
  lstrip_by p s = String c r -> p c = false.
Proof.
  induction s as [|d s IH]; simpl; [discriminate|].
  destruct (p d) eqn:Hd; [exact IH|].
  intros H. inversion H; subst. exact Hd.
Qed.

(** A line strips to nothing exactly when it is made of whitespace. *)
Lemma strip_blank (s : string) :
  strip s = "" <-> all_chars isspace s = true.
Proof.
  unfold strip. split.
  - induction s as [|c s IH]; simpl; [reflexivity|].
    destruct (isspace c) eqn:Hc; simpl; [exact IH|].
    destruct (rstrip_by isspace s); [rewrite Hc|]; discriminate.
  - intros H. rewrite (lstrip_by_all _ _ H). reflexivity.
Qed.

End StringFacts.

(** ** The parsers and the trimming on sample values *)

Section Samples.
Import PyStr PyNum.

Example int_plain : py_int "1024" = Some 1024.
Proof. reflexivity. Qed.

Example int_blanks_and_sign : py_int " -5 " = Some (-5).
Proof. reflexivity. Qed.

Example int_underscores : py_int "1_000" = Some 1000.
Proof. reflexivity. Qed.

Example int_rejects_float : py_int "12.5" = None.
Proof. reflexivity. Qed.

Example int_rejects_empty : py_int "" = None.
Proof. reflexivity. Qed.

(** U+001C is whitespace for [strip] and not for [int]. *)
Example int_rejects_file_separator :
  strip (String "028" "5") = "5" /\ py_int (String "028" "5") = None.
Proof. split; reflexivity. Qed.

Example float_plain : py_float "0.3" = Some (F_dec false 3 (-1)).
Proof. reflexivity. Qed.

Example float_exponent : py_float " 1_0.5e-3 " = Some (F_dec false 105 (-4)).
Proof. reflexivity. Qed.

Example float_infinity : py_float "-Infinity" = Some (F_inf true).
Proof. reflexivity. Qed.

Example float_rejects_word : py_float "warm" = None.
Proof. reflexivity. Qed.

Example float_rejects_bare_point : py_float "." = None.
Proof. reflexivity. Qed.

Example strip_keeps_inner_blanks : strip "  a b  " = "a b".
Proof. reflexivity. Qed.

Example rstrip_slashes : rstrip "/" "http://host/v1//" = "http://host/v1".
Proof. reflexivity. Qed.

Example sentinel_any_case : is_sentinel (strip "  QuIt ") = true.
Proof. reflexivity. Qed.

Example sentinel_needs_whole_line : is_sentinel (strip "exit now") = false.
Proof. reflexivity. Qed.

(** A turn that raises ends the process with a traceback and status 1. *)
Example second_turn_raises :
  run_script bare_fw key_env (mkArgs true "") [Line "a"; Line "b"; Line "exit"]
  = mkOutcome ([Call Fmain; Call Finteractive_loop] ++ build_events key_env 0
               ++ [Stdout (banner +:+ newline)]
               ++ turn_events 0 "a" "TaskResult(a)"
               ++ [Stdout (newline +:+ "You: "); Run 0%nat "b";
                   Traceback "RuntimeError: connection lost"]) 1.
Proof. vm_compute. reflexivity. Qed.

End Samples.

(** ** The steps of the interactive loop *)

Section LoopFacts.
Import PyStr Config.

Context (F : Framework).

(** A sentinel ends the loop: nothing is submitted, what follows on
    standard input is not read. *)
Lemma loop_sentinel (a : Agent F) (line : string) (rest : list StdinEvent)
      (n : nat) :
  is_sentinel (strip line) = true ->
  interactive_while F a (Line line :: rest) n
  = (Ret tt, n, goodbye_events).
Proof.
  intros Hs. simpl. run_monad. rewrite Hs. reflexivity.
Qed.

(** Any other line is a turn, when the agent returns. *)
Lemma loop_turn (a : Agent F) (line : string) (rest : list StdinEvent)
      (n : nat) (r : Result) (obj' : fw_agent F) :
  is_sentinel (strip line) = false ->
  agent_run F (agent_obj a) (strip line) = (inr r, obj') ->
  interactive_while F a (Line line :: rest) n
  = after (turn_events (agent_id a) (strip line) (getattr_content r))
          (interactive_while F (mkAgent (agent_id a) obj') rest n).
Proof.
  intros Hs Hr. simpl. run_monad. rewrite Hs, Hr. simpl.
  unfold after.
  destruct (interactive_while F (mkAgent (agent_id a) obj') rest n)
    as [[res n'] evs].
  reflexivity.
Qed.

(** ... and the end of the process, when the agent raises. *)
Lemma loop_turn_raises (a : Agent F) (line : string) (rest : list StdinEvent)
      (n : nat) (text : string) (obj' : fw_agent F) :
  is_sentinel (strip line) = false ->
  agent_run F (agent_obj a) (strip line) = (inl text, obj') ->
  interactive_while F a (Line line :: rest) n
  = (Raise (FrameworkError text), n,
     [Stdout (newline +:+ "You: "); Run (agent_id a) (strip line)]).
Proof.
  intros Hs Hr. simpl. run_monad. rewrite Hs, Hr. reflexivity.
Qed.

Lemma loop_eof (a : Agent F) (n : nat) :
  interactive_while F a [] n = (Ret tt, n, exit_events).
Proof. reflexivity. Qed.

Lemma loop_interrupt (a : Agent F) (rest : list StdinEvent) (n : nat) :
  interactive_while F a (CtrlC :: rest) n = (Ret tt, n, exit_events).
Proof. reflexivity. Qed.

End LoopFacts.

(** ** Reading the trace of a concatenation *)

Section TraceFacts.

Lemma calls_app (xs ys : list Event) : calls (xs ++ ys) = calls xs ++ calls ys.
Proof.
  induction xs as [|[] xs IH]; simpl; rewrite ?IH; reflexivity.
Qed.

Lemma modes_run_app (xs ys : list Event) :
  modes_run (xs ++ ys) = modes_run xs ++ modes_run ys.
Proof.
  induction xs as [|[[]| | | | | |] xs IH]; simpl; rewrite ?IH; reflexivity.
Qed.

Lemma new_agents_app (xs ys : list Event) :
  new_agents (xs ++ ys) = new_agents xs ++ new_agents ys.
Proof.
  induction xs as [|[] xs IH]; simpl; rewrite ?IH; reflexivity.
Qed.

Lemma runs_app (xs ys : list Event) : runs (xs ++ ys) = runs xs ++ runs ys.
Proof.
  induction xs as [|[] xs IH]; simpl; rewrite ?IH; reflexivity.
Qed.

Lemma modes_run_no_calls (xs : list Event) : calls xs = [] -> modes_run xs = [].
Proof.
  induction xs as [|[] xs IH]; simpl; intros H; try discriminate; auto.
Qed.

Lemma interpreter_exit_after (evs : list Event) (x : Res unit * nat * list Event) :
  interpreter_exit (after evs x)
  = mkOutcome (evs ++ events (interpreter_exit x))
              (exit_status (interpreter_exit x)).
Proof.
  destruct x as [[[u|[[k|msg]| | |text]] n] evs']; simpl;
    rewrite ?app_assoc; reflexivity.
Qed.

End TraceFacts.

(** ** Building the agent, and what the loop may emit *)

Section BuildFacts.
Import PyStr Config.

Context (F : Framework).

Lemma build_assistant_ok (env : gmap string string) (obj : fw_agent F) (n : nat) :
  builds F env obj ->
  build_assistant F env n = (Ret (mkAgent n obj), S n, build_events env n).
Proof.
  intros [client [Hc Ha]].
  unfold build_assistant, build_model_client. run_monad.
  rewrite Hc. simpl. rewrite Ha. reflexivity.
Qed.

(** Whatever the constructors do, building emits at most one agent, of
    identity [n], and submits nothing. *)
Lemma build_assistant_shape (env : gmap string string) (n : nat) :
  exists res n' evs,
    build_assistant F env n = (res, n', evs)
    /\ runs evs = []
    /\ modes_run evs = []
    /\ (new_agents evs = []
        \/ new_agents evs = [n] /\ exists obj, res = Ret (mkAgent n obj)).
Proof.
  unfold build_assistant, build_model_client. run_monad.
  destruct (OpenAIChatCompletionClient F _ _ _) as [text|client]; simpl.
  - do 3 eexists. split; [reflexivity|]. simpl. auto.
  - destruct (AssistantAgent F _ client _) as [text|obj]; simpl.
    + do 3 eexists. split; [reflexivity|]. simpl. auto.
    + do 3 eexists. split; [reflexivity|]. simpl.
      split; [reflexivity|]. split; [reflexivity|]. right. eauto.
Qed.

(** The loop calls no function of the program, builds nothing, and
    submits every turn to the agent it was given. *)
Lemma loop_shape (stdin : list StdinEvent) :
  forall (a : Agent F) (n : nat),
  exists res evs,
    interactive_while F a stdin n = (res, n, evs)
    /\ calls evs = []
    /\ new_agents evs = []
    /\ Forall (fun turn => fst turn = agent_id a) (runs evs).
Proof.
  induction stdin as [|ev rest IH]; intros a n.
  - rewrite loop_eof. do 2 eexists. split; [reflexivity|]. simpl. auto.
  - destruct ev as [line|].
    + destruct (is_sentinel (strip line)) eqn:Hs.
      * rewrite (loop_sentinel F a line rest n Hs).
        do 2 eexists. split; [reflexivity|]. simpl. auto.
      * destruct (agent_run F (agent_obj a) (strip line)) as [[text|r] obj'] eqn:Hr.
        -- rewrite (loop_turn_raises F a line rest n text obj' Hs Hr).
           do 2 eexists. split; [reflexivity|]. simpl. auto.
        -- rewrite (loop_turn F a line rest n r obj' Hs Hr).
           destruct (IH (mkAgent (agent_id a) obj') n)
             as (res & evs & Heq & Hc & Hn & Hr').
           rewrite Heq. simpl. do 2 eexists. split; [reflexivity|].
           simpl. auto.
    + rewrite loop_interrupt. do 2 eexists. split; [reflexivity|]. simpl. auto.
Qed.

(** Lines that are no sentinels, each answered by the agent, and then
    the end of input or an interrupt: a turn per line, and the exit
    notice. *)
Lemma loop_lines_then_exit (lines : list string) (tail : list StdinEvent) :
  Forall (fun line => is_sentinel (strip line) = false) lines ->
  tail = [] \/ (exists rest, tail = CtrlC :: rest) ->
  forall (a : Agent F) (n : nat),
  answers F (agent_obj a) (map strip lines) = true ->
  exists pre,
    interactive_while F a (map Line lines ++ tail) n
    = (Ret tt, n, pre ++ exit_events)
    /\ runs pre = map (fun line => (agent_id a, strip line)) lines.
Proof.
  intros Hlines Htail.
  induction Hlines as [|line lines Hs _ IH]; intros a n Hans.
  - exists []. simpl. split; [|reflexivity].
    destruct Htail as [->|[rest ->]]; reflexivity.
  - simpl in Hans.
    destruct (agent_run F (agent_obj a) (strip line)) as [[text|r] obj'] eqn:Hr;
      [discriminate|].
    destruct (IH (mkAgent (agent_id a) obj') n Hans) as (pre & Heq & Hruns).
    exists (turn_events (agent_id a) (strip line) (getattr_content r) ++ pre).
    simpl map. simpl app at 1.
    rewrite (loop_turn F a line _ n r obj' Hs Hr), Heq. simpl.
    split; [reflexivity|]. rewrite Hruns. reflexivity.
Qed.

(** With the key set and the imports done, the script is [main()]. *)
Lemma script_is_main (env : gmap string string) (args : Namespace)
      (stdin : list StdinEvent) (n : nat) :
  GOOGLE_API_KEY env <> "" ->
  fw_import F = None ->
  script F env args stdin n = main F env args stdin n.
Proof.
  intros Hkey Himp. unfold script, import_autogen.
  apply truthy_true in Hkey. rewrite Hkey, Himp. simpl.
  unfold bind, ret. simpl.
  destruct (main F env args stdin n) as [[res n'] evs]. reflexivity.
Qed.

(** Without the key the script is over before anything else happens. *)
Lemma script_without_key (env : gmap string string) (args : Namespace)
      (stdin : list StdinEvent) :
  GOOGLE_API_KEY env = "" ->
  run_script F env args stdin
  = mkOutcome [Stderr (missing_key_message +:+ newline)] 1.
Proof.
  intros Hkey. unfold run_script, script. rewrite Hkey. reflexivity.
Qed.

(** With the imports failing it is over as well. *)
Lemma script_without_autogen (env : gmap string string) (args : Namespace)
      (stdin : list StdinEvent) (text : string) :
  GOOGLE_API_KEY env <> "" ->
  fw_import F = Some text ->
  run_script F env args stdin
  = mkOutcome [Stderr (import_error_message text +:+ newline)] 1.
Proof.
  intros Hkey Himp. unfold run_script, script, import_autogen.
  apply truthy_true in Hkey. rewrite Hkey, Himp. reflexivity.
Qed.

(** The interactive mode, once the agent is built. *)
Lemma main_interactive (env : gmap string string) (p : string)
      (stdin : list StdinEvent) (obj : fw_agent F) (n : nat) :
  builds F env obj ->
  main F env (mkArgs true p) stdin n
  = after ([Call Fmain; Call Finteractive_loop] ++ build_events env n
           ++ [Stdout (banner +:+ newline)])
          (interactive_while F (mkAgent n obj) stdin (S n)).
Proof.
  intros Hb. unfold main, interactive_loop. simpl.
  unfold bind at 1. unfold emit at 1. unfold bind at 1. unfold emit at 1.
  unfold bind at 1. rewrite (build_assistant_ok env obj n Hb).
  unfold bind, print, emit. simpl.
  destruct (interactive_while F (mkAgent n obj) stdin (S n)) as [[res n'] evs].
  reflexivity.
Qed.

(** The one-shot mode, when the agent is built and answers. *)
Lemma one_shot_ok (env : gmap string string) (task : string)
      (obj obj' : fw_agent F) (r : Result) (n : nat) :
  builds F env obj ->
  agent_run F obj task = (inr r, obj') ->
  one_shot F env task n
  = (Ret (getattr_content r), S n,
     [Call Fone_shot] ++ build_events env n ++ [Run n task]).
Proof.
  intros Hb Hr. unfold one_shot.
  unfold bind at 1. unfold emit at 1. unfold bind at 1.
  rewrite (build_assistant_ok env obj n Hb).
  unfold bind, run, emit, ret. simpl. rewrite Hr. reflexivity.
Qed.

End BuildFacts.

(** ** The dispatcher *)

Section MainFacts.
Import PyStr Config.

Context (F : Framework).

(** The interpreter's own events are no calls, agents or turns. *)
Lemma interpreter_exit_reads (x : Res unit * nat * list Event) :
  modes_run (events (interpreter_exit x)) = modes_run (snd x)
  /\ calls (events (interpreter_exit x)) = calls (snd x)
  /\ new_agents (events (interpreter_exit x)) = new_agents (snd x)
  /\ runs (events (interpreter_exit x)) = runs (snd x).
Proof.
  destruct x as [[[u|[[k|msg]| | |text]] n] evs]; simpl;
    rewrite ?modes_run_app, ?calls_app, ?new_agents_app, ?runs_app; simpl;
    rewrite ?app_nil_r; auto.
Qed.

Lemma main_one_shot_ok (env : gmap string string) (p : string)
      (stdin : list StdinEvent) (obj obj' : fw_agent F) (r : Result) (n : nat) :
  p <> "" ->
  builds F env obj ->
  agent_run F obj p = (inr r, obj') ->
  main F env (mkArgs false p) stdin n
  = (Ret tt, S n,
     [Call Fmain; Call Fone_shot] ++ build_events env n
     ++ [Run n p; Stdout (getattr_content r +:+ newline)]).
Proof.
  intros Hp Hb Hr. apply truthy_true in Hp.
  unfold main. simpl. rewrite Hp.
  unfold bind at 1. unfold emit at 1. unfold bind at 1.
  rewrite (one_shot_ok F env p obj obj' r n Hb Hr). reflexivity.
Qed.

Lemma main_one_shot_raises (env : gmap string string) (p : string)
      (stdin : list StdinEvent) (obj obj' : fw_agent F) (text : string)
      (n : nat) :
  p <> "" ->
  builds F env obj ->
  agent_run F obj p = (inl text, obj') ->
  main F env (mkArgs false p) stdin n
  = (Raise (FrameworkError text), S n,
     [Call Fmain; Call Fone_shot] ++ build_events env n ++ [Run n p]).
Proof.
  intros Hp Hb Hr. apply truthy_true in Hp.
  unfold main, one_shot. simpl. rewrite Hp.
  unfold bind at 1. unfold emit at 1. unfold bind at 1.
  unfold bind at 1. unfold emit at 1. unfold bind at 1.
  rewrite (build_assistant_ok F env obj n Hb).
  unfold bind, run, emit, raise. simpl. rewrite Hr. reflexivity.
Qed.

Lemma main_usage (env : gmap string string) (stdin : list StdinEvent) (n : nat) :
  main F env (mkArgs false "") stdin n
  = (Raise (SystemExit (ExitStatus 1)), n,
     Call Fmain :: map (fun l => Stdout (l +:+ newline)) usage).
Proof. reflexivity. Qed.

(** The prompt plays no part when the interactive flag is set. *)
Lemma script_ignores_prompt (env : gmap string string) (p : string)
      (stdin : list StdinEvent) (n : nat) :
  script F env (mkArgs true p) stdin n = script F env (mkArgs true "") stdin n.
Proof. reflexivity. Qed.

(** Whatever the framework does: the mode [main] enters, the agents it
    builds and the turns it submits. *)
Lemma main_shape (env : gmap string string) (args : Namespace)
      (stdin : list StdinEvent) (n : nat) :
  exists res n' evs,
    main F env args stdin n = (res, n', evs)
    /\ modes_run evs
       = (if interactive args then [Finteractive_loop]
          else if truthy (prompt args) then [Fone_shot] else [])
    /\ (new_agents evs = [] /\ runs evs = []
        \/ new_agents evs = [n] /\ Forall (fun turn => fst turn = n) (runs evs)).
Proof.
  destruct args as [[|] p].
  - (* interactive *)
    destruct (build_assistant_shape F env n)
      as (res & n' & evs & Heq & Hruns & Hmodes & Hnew).
    unfold main, interactive_loop. simpl.
    unfold bind at 1. unfold emit at 1. unfold bind at 1. unfold emit at 1.
    unfold bind at 1. rewrite Heq.
    destruct res as [a|e].
    + destruct (loop_shape F stdin a n')
        as (lres & levs & Hl & Hlc & Hln & Hlr).
      unfold bind, print, emit. simpl. rewrite Hl.
      do 3 eexists. split; [reflexivity|].
      simpl. rewrite !modes_run_app, !new_agents_app, !runs_app. simpl.
      rewrite Hmodes, Hruns, Hln, (modes_run_no_calls _ Hlc). simpl.
      split; [reflexivity|].
      destruct Hnew as [Hnew|[Hnew [obj Hobj]]]; rewrite Hnew.
      * left. split; [reflexivity|].
        (* no agent and yet a result: the loop still only talks to [a] *)
        exfalso. clear - Heq Hnew.
        unfold build_assistant, build_model_client in Heq.
        unfold bind, emit, raise, ret, fresh in Heq. simpl in Heq.
        destruct (OpenAIChatCompletionClient F _ _ _); simpl in Heq;
          [congruence|].
        destruct (AssistantAgent F _ _ _); simpl in Heq; [congruence|].
        inversion Heq; subst. discriminate.
      * right. split; [reflexivity|].
        inversion Hobj; subst. exact Hlr.
    + do 3 eexists. split; [reflexivity|].
      simpl. rewrite ?modes_run_app, ?new_agents_app, ?runs_app.
      rewrite Hmodes, Hruns. simpl. split; [reflexivity|].
      destruct Hnew as [Hnew|[Hnew [obj Hobj]]]; [|discriminate].
      rewrite Hnew. left. auto.
  - (* one-shot or usage *)
    destruct (truthy p) eqn:Hp.
    + destruct (build_assistant_shape F env n)
        as (res & n' & evs & Heq & Hruns & Hmodes & Hnew).
      unfold main, one_shot. simpl. rewrite Hp.
      unfold bind at 1. unfold emit at 1. unfold bind at 1.
      unfold bind at 1. unfold emit at 1. unfold bind at 1.
      rewrite Heq.
      destruct res as [a|e].
      * destruct Hnew as [Hnew|[Hnew [obj Hobj]]].
        -- exfalso. clear - Heq Hnew.
           unfold build_assistant, build_model_client in Heq.
           unfold bind, emit, raise, ret, fresh in Heq. simpl in Heq.
           destruct (OpenAIChatCompletionClient F _ _ _); simpl in Heq;
             [congruence|].
           destruct (AssistantAgent F _ _ _); simpl in Heq; [congruence|].
           inversion Heq; subst. discriminate.
        -- inversion Hobj; subst.
           unfold bind, run, emit, raise, ret, print. simpl.
           destruct (agent_run F obj p) as [[text|r] obj']; simpl;
             do 3 eexists; (split; [reflexivity|]); simpl;
             rewrite ?modes_run_app, ?new_agents_app, ?runs_app;
             rewrite Hmodes, Hruns, Hnew; simpl;
             (split; [reflexivity|]); right; auto.
      * do 3 eexists. split; [reflexivity|].
        simpl. rewrite Hmodes, Hruns. split; [reflexivity|].
        destruct Hnew as [Hnew|[Hnew [obj Hobj]]]; [|discriminate].
        rewrite Hnew. left. auto.
    + destruct p; [|discriminate]. rewrite main_usage.
      do 3 eexists. split; [reflexivity|]. simpl. auto.
Qed.

(** The same for the whole script. *)
Lemma script_shape (env : gmap string string) (args : Namespace)
      (stdin : list StdinEvent) :
  let evs := events (run_script F env args stdin) in
  (modes_run evs = []
   \/ GOOGLE_API_KEY env <> "" /\ fw_import F = None
      /\ modes_run evs
         = (if interactive args then [Finteractive_loop]
            else if truthy (prompt args) then [Fone_shot] else []))
  /\ (new_agents evs = [] /\ runs evs = []
      \/ new_agents evs = [0%nat]
         /\ Forall (fun turn => fst turn = 0%nat) (runs evs)).
Proof.
  simpl. destruct (truthy (GOOGLE_API_KEY env)) eqn:Hkey.
  - apply truthy_true in Hkey.
    destruct (fw_import F) as [text|] eqn:Himp.
    + rewrite (script_without_autogen F env args stdin text Hkey Himp).
      simpl. auto.
    + unfold run_script. rewrite (script_is_main F env args stdin 0 Hkey Himp).
      destruct (main_shape env args stdin 0)
        as (res & n' & evs & Heq & Hmodes & Hnew).
      rewrite Heq.
      destruct (interpreter_exit_reads (res, n', evs)) as (-> & _ & -> & ->).
      simpl. split; [right; auto|exact Hnew].
  - apply truthy_false in Hkey.
    rewrite (script_without_key F env args stdin Hkey). simpl. auto.
Qed.

End MainFacts.

(** ** What the script reads of the environment *)

Section EnvFacts.
Import PyStr PyNum Config.

Context (F : Framework).

(** The script depends on the environment through four globals only. *)
Lemma script_reads_four_globals (env env' : gmap string string)
      (args : Namespace) (stdin : list StdinEvent) :
  GOOGLE_API_KEY env = GOOGLE_API_KEY env' ->
  MODEL_NAME env = MODEL_NAME env' ->
  BASE_URL env = BASE_URL env' ->
  SYSTEM_PROMPT env = SYSTEM_PROMPT env' ->
  run_script F env args stdin = run_script F env' args stdin.
Proof.
  intros Hk Hm Hb Hs.
  unfold run_script, script, main, interactive_loop, one_shot,
    build_assistant, build_model_client.
  rewrite Hk, Hm, Hb, Hs. reflexivity.
Qed.

(** Setting a variable that is none of the four changes nothing. *)
Lemma script_ignores_variable (env : gmap string string) (key v : string)
      (args : Namespace) (stdin : list StdinEvent) :
  key <> "GOOGLE_API_KEY" ->
  key <> "GOOGLE_MODEL" ->
  key <> "GOOGLE_OPENAI_COMPAT_BASE_URL" ->
  key <> "SYSTEM_PROMPT" ->
  run_script F (<[key := v]> env) args stdin = run_script F env args stdin.
Proof.
  intros H1 H2 H3 H4. apply script_reads_four_globals.
  - unfold GOOGLE_API_KEY, getenv_or. rewrite lookup_insert_ne; auto.
  - unfold MODEL_NAME, getenv. rewrite lookup_insert_ne; auto.
  - unfold BASE_URL, getenv. rewrite lookup_insert_ne; auto.
  - unfold SYSTEM_PROMPT, getenv. rewrite lookup_insert_ne; auto.
Qed.

(** The default strings parse to the default values. *)
Lemma default_strings_parse :
  py_float "0.3" = Some default_temperature
  /\ py_int "1024" = Some default_max_tokens.
Proof. split; reflexivity. Qed.

End EnvFacts.

(** The constructors of [echo_fw] accept every configuration. *)
Lemma echo_builds (env : gmap string string) : builds echo_fw env 0%nat.
Proof. exists tt. split; reflexivity. Defined.

Lemma key_env_has_key : Config.GOOGLE_API_KEY key_env <> "".
Proof. vm_compute. discriminate. Defined.

(** * The claims *)

Section Claims.
  Import PyStr PyNum Config.

(** C1.  When [GOOGLE_API_KEY] is missing from the environment, or its
    value is empty or empty once trimmed, the script ends with exit
    status 1, having written to standard error one message that names
    the variable; no function of the program was entered, no agent was
    constructed and no turn was submitted. *)
Theorem C1_missing_key_fails_startup (F : Framework)
        (env : gmap string string) (args : Namespace)
        (stdin : list StdinEvent) :
  env !! "GOOGLE_API_KEY" = None
  \/ (exists v, env !! "GOOGLE_API_KEY" = Some v /\ strip v = "") ->
  events (run_script F env args stdin)
  = [Stderr (missing_key_message +:+ newline)]
  /\ exit_status (run_script F env args stdin) = 1
  /\ exit_status (run_script F env args stdin) <> 0
  /\ contains "GOOGLE_API_KEY" missing_key_message = true
  /\ calls (events (run_script F env args stdin)) = []
  /\ new_agents (events (run_script F env args stdin)) = []
  /\ runs (events (run_script F env args stdin)) = [].
Proof.
  intros Hmissing.
  assert (Hkey : GOOGLE_API_KEY env = "").
  { unfold GOOGLE_API_KEY, getenv_or.
    destruct Hmissing as [->|[v [-> Hv]]]; [reflexivity|exact Hv]. }
  rewrite (script_without_key F env args stdin Hkey). simpl.
  split; [reflexivity|]. split; [reflexivity|]. split; [discriminate|].
  split; [reflexivity|]. auto.
Qed.

Lemma C1_witness :
  (blank_key_env !! "GOOGLE_API_KEY" = None
   \/ (exists v, blank_key_env !! "GOOGLE_API_KEY" = Some v /\ strip v = ""))
  /\ exit_status (run_script echo_fw blank_key_env
                             (mkArgs true "hi") [Line "hello"]) = 1.
Proof.
  assert (H : blank_key_env !! "GOOGLE_API_KEY" = None
              \/ (exists v, blank_key_env !! "GOOGLE_API_KEY" = Some v
                            /\ strip v = "")).
  { right. exists "   ". split; [apply lookup_singleton_eq | reflexivity]. }
  split; [exact H|].
  exact (proj1 (proj2 (C1_missing_key_fails_startup
                         echo_fw blank_key_env
                         (mkArgs true "hi") [Line "hello"] H))).
Defined.

(** C2.  With the key set and the imports done, [main] does exactly one
    of three things, in this order.  With [--interactive] the interactive
    mode is entered, the one-shot mode is not, and the run is the same
    whatever the prompt.  Otherwise, with a prompt that is not empty, the
    one-shot mode is entered and the interactive mode is not; when the
    agent is built and answers, one turn with the prompt is submitted,
    the reply is printed and the exit status is 0.  Otherwise the usage
    text is printed, no mode is entered and the exit status is 1.  No run
    enters more than one mode. *)
Theorem C2_dispatch_selects_one_mode (F : Framework)
        (env : gmap string string) (stdin : list StdinEvent) :
  GOOGLE_API_KEY env <> "" ->
  fw_import F = None ->
  (forall p,
      run_script F env (mkArgs true p) stdin
      = run_script F env (mkArgs true "") stdin
      /\ modes_run (events (run_script F env (mkArgs true p) stdin))
         = [Finteractive_loop])
  /\ (forall p, p <> "" ->
        modes_run (events (run_script F env (mkArgs false p) stdin))
        = [Fone_shot])
  /\ (forall p obj obj' r,
        p <> "" -> builds F env obj -> agent_run F obj p = (inr r, obj') ->
        run_script F env (mkArgs false p) stdin
        = mkOutcome ([Call Fmain; Call Fone_shot] ++ build_events env 0
                     ++ [Run 0%nat p; Stdout (getattr_content r +:+ newline)])
                    0)
  /\ run_script F env (mkArgs false "") stdin
     = mkOutcome (Call Fmain :: map (fun l => Stdout (l +:+ newline)) usage) 1
  /\ (forall args,
        (length (modes_run (events (run_script F env args stdin))) <= 1)%nat).
Proof.
  intros Hkey Himp.
  assert (Hmodes : forall args,
             modes_run (events (run_script F env args stdin))
             = (if interactive args then [Finteractive_loop]
                else if truthy (prompt args) then [Fone_shot] else [])).
  { intros args. unfold run_script.
    rewrite (script_is_main F env args stdin 0 Hkey Himp).
    destruct (main_shape F env args stdin 0)
      as (res & n' & evs & Heq & Hm & _).
    rewrite Heq.
    destruct (interpreter_exit_reads (res, n', evs)) as (-> & _).
    exact Hm. }
  split; [|split; [|split; [|split]]].
  - intros p. split; [|apply (Hmodes (mkArgs true p))].
    unfold run_script. rewrite script_ignores_prompt. reflexivity.
  - intros p Hp. rewrite (Hmodes (mkArgs false p)). simpl.
    apply truthy_true in Hp. rewrite Hp. reflexivity.
  - intros p obj obj' r Hp Hb Hr. unfold run_script.
    rewrite (script_is_main F env _ stdin 0 Hkey Himp).
    rewrite (main_one_shot_ok F env p stdin obj obj' r 0 Hp Hb Hr).
    reflexivity.
  - unfold run_script.
    rewrite (script_is_main F env _ stdin 0 Hkey Himp), main_usage.
    reflexivity.
  - intros args. rewrite (Hmodes args).
    destruct (interactive args); [simpl; lia|].
    destruct (truthy (prompt args)); simpl; lia.
Qed.

Lemma C2_witness :
  GOOGLE_API_KEY key_env <> ""
  /\ fw_import echo_fw = None
  /\ modes_run (events (run_script echo_fw key_env (mkArgs true "ignored")
                                   [Line "hello"; Line "exit"]))
     = [Finteractive_loop]
  /\ exit_status (run_script echo_fw key_env (mkArgs false "Explain RAG") [])
     = 0
  /\ exit_status (run_script echo_fw key_env (mkArgs false "") []) = 1.
Proof.
  assert (Himp : fw_import echo_fw = None) by reflexivity.
  pose proof (C2_dispatch_selects_one_mode
                echo_fw key_env [Line "hello"; Line "exit"]
                key_env_has_key Himp)
    as (Hi & _).
  pose proof (C2_dispatch_selects_one_mode echo_fw key_env []
                                           key_env_has_key Himp)
    as (_ & _ & Ho & Hu & _).
  split; [exact key_env_has_key|]. split; [exact Himp|]. split; [|split].
  - apply (Hi "ignored").
  - rewrite (Ho "Explain RAG" 0%nat 1%nat
                (mkResult (Some "echo: Explain RAG") "TaskResult")
                ltac:(discriminate) (echo_builds key_env) eq_refl).
    reflexivity.
  - rewrite Hu. reflexivity.
Defined.

(** C3.  A value of [TEMPERATURE] that [float] rejects gives the default
    0.3 and one that it accepts gives the parsed float; a value of
    [MAX_TOKENS] that [int] rejects gives the default 1024 and one that it
    accepts gives the parsed integer.  Neither variable shows in what the
    script does: the run, its output and its exit status are the same
    whatever value either variable is given. *)
Theorem C3_numeric_fallback_is_silent (F : Framework)
        (env : gmap string string) (args : Namespace)
        (stdin : list StdinEvent) :
  (forall v, env !! "TEMPERATURE" = Some v -> py_float v = None ->
             TEMPERATURE env = F_dec false 3 (-1))
  /\ (forall v f, env !! "TEMPERATURE" = Some v -> py_float v = Some f ->
                  TEMPERATURE env = f)
  /\ (forall v, env !! "MAX_TOKENS" = Some v -> py_int v = None ->
                MAX_TOKENS env = 1024)
  /\ (forall v n, env !! "MAX_TOKENS" = Some v -> py_int v = Some n ->
                  MAX_TOKENS env = n)
  /\ (forall v, run_script F (<["TEMPERATURE" := v]> env) args stdin
                = run_script F env args stdin)
  /\ (forall v, run_script F (<["MAX_TOKENS" := v]> env) args stdin
                = run_script F env args stdin).
Proof.
  split; [|split; [|split; [|split; [|split]]]].
  - intros v Hv Hp. unfold TEMPERATURE, getenv_or. rewrite Hv. simpl.
    rewrite Hp. reflexivity.
  - intros v f Hv Hp. unfold TEMPERATURE, getenv_or. rewrite Hv. simpl.
    rewrite Hp. reflexivity.
  - intros v Hv Hp. unfold MAX_TOKENS, getenv_or. rewrite Hv. simpl.
    rewrite Hp. reflexivity.
  - intros v n Hv Hp. unfold MAX_TOKENS, getenv_or. rewrite Hv. simpl.
    rewrite Hp. reflexivity.
  - intros v. apply script_ignores_variable; discriminate.
  - intros v. apply script_ignores_variable; discriminate.
Qed.

Lemma C3_witness :
  lenient_env !! "TEMPERATURE" = Some "warm"
  /\ py_float "warm" = None
  /\ TEMPERATURE lenient_env = F_dec false 3 (-1)
  /\ lenient_env !! "MAX_TOKENS" = Some "12.5"
  /\ py_int "12.5" = None
  /\ MAX_TOKENS lenient_env = 1024.
Proof.
  assert (Ht : lenient_env !! "TEMPERATURE" = Some "warm")
    by (vm_compute; reflexivity).
  assert (Hm : lenient_env !! "MAX_TOKENS" = Some "12.5")
    by (vm_compute; reflexivity).
  pose proof (C3_numeric_fallback_is_silent echo_fw lenient_env
                                            (mkArgs false "") [])
    as (Hf & _ & Hi & _).
  split; [exact Ht|]. split; [reflexivity|].
  split; [exact (Hf "warm" Ht eq_refl)|].
  split; [exact Hm|]. split; [reflexivity|].
  exact (Hi "12.5" Hm eq_refl).
Defined.

(** C4.  A line whose trimmed, lower-cased form is "exit" or "quit" ends
    the loop: the farewell is printed, the line is not submitted and
    nothing more is read.  On the input "hello", "exit", with an agent
    that is built and answers "hello", the run submits the one turn
    "hello", prints the one reply, prints the farewell and ends with exit
    status 0; on "hello", "quit" the run is the same. *)
Theorem C4_sentinel_ends_loop (F : Framework) (env : gmap string string)
        (p : string) (obj obj' : fw_agent F) (r : Result) :
  GOOGLE_API_KEY env <> "" ->
  fw_import F = None ->
  builds F env obj ->
  agent_run F obj "hello" = (inr r, obj') ->
  (forall (a : Agent F) line rest n,
      lower (strip line) = "exit" \/ lower (strip line) = "quit" ->
      interactive_while F a (Line line :: rest) n = (Ret tt, n, goodbye_events))
  /\ run_script F env (mkArgs true p) [Line "hello"; Line "exit"]
     = mkOutcome ([Call Fmain; Call Finteractive_loop] ++ build_events env 0
                  ++ [Stdout (banner +:+ newline)]
                  ++ turn_events 0 "hello" (getattr_content r)
                  ++ goodbye_events) 0
  /\ run_script F env (mkArgs true p) [Line "hello"; Line "quit"]
     = run_script F env (mkArgs true p) [Line "hello"; Line "exit"]
  /\ runs (events (run_script F env (mkArgs true p)
                              [Line "hello"; Line "exit"]))
     = [(0%nat, "hello")].
Proof.
  intros Hkey Himp Hb Hr.
  assert (Hrun : forall word, is_sentinel (strip word) = true ->
            run_script F env (mkArgs true p) [Line "hello"; Line word]
            = mkOutcome ([Call Fmain; Call Finteractive_loop]
                         ++ build_events env 0
                         ++ [Stdout (banner +:+ newline)]
                         ++ turn_events 0 "hello" (getattr_content r)
                         ++ goodbye_events) 0).
  { intros word Hw. unfold run_script.
    rewrite (script_is_main F env _ _ 0 Hkey Himp).
    rewrite (main_interactive F env p _ obj 0 Hb).
    rewrite (loop_turn F (mkAgent 0 obj) "hello" [Line word] 1 r obj'
                       eq_refl Hr).
    rewrite (loop_sentinel F _ word [] 1 Hw). reflexivity. }
  split; [|split; [|split]].
  - intros a line rest n Hs. apply loop_sentinel. apply is_sentinel_iff, Hs.
  - apply Hrun. reflexivity.
  - rewrite !Hrun; reflexivity.
  - rewrite Hrun; reflexivity.
Qed.

Lemma C4_witness :
  GOOGLE_API_KEY key_env <> ""
  /\ fw_import echo_fw = None
  /\ builds echo_fw key_env 0%nat
  /\ stdout (events (run_script echo_fw key_env (mkArgs true "")
                                [Line "hello"; Line "exit"]))
     = [ banner +:+ newline;
         newline +:+ "You: ";
         newline +:+ "Assistant: echo: hello" +:+ newline;
         newline +:+ "You: ";
         "Goodbye." +:+ newline ].
Proof.
  split; [exact key_env_has_key|]. split; [reflexivity|].
  split; [exact (echo_builds key_env)|].
  pose proof (C4_sentinel_ends_loop
                echo_fw key_env "" 0%nat 1%nat
                (mkResult (Some "echo: hello") "TaskResult")
                key_env_has_key eq_refl (echo_builds key_env) eq_refl)
    as (_ & Hrun & _).
  rewrite Hrun. reflexivity.
Defined.

(** C5.  In both modes the reply that is printed is the [content] of the
    result when the result has one and the [str] of the result
    otherwise: the one-shot mode prints it on a line of its own, the
    interactive mode after "Assistant: ". *)
Theorem C5_reply_is_content_or_str (F : Framework)
        (env : gmap string string) (stdin : list StdinEvent) (n : nat)
        (p : string) (obj obj1 : fw_agent F) (r1 : Result)
        (a : Agent F) (line : string) (rest : list StdinEvent)
        (obj2 : fw_agent F) (r2 : Result) :
  p <> "" ->
  builds F env obj ->
  agent_run F obj p = (inr r1, obj1) ->
  is_sentinel (strip line) = false ->
  agent_run F (agent_obj a) (strip line) = (inr r2, obj2) ->
  main F env (mkArgs false p) stdin n
  = (Ret tt, S n,
     [Call Fmain; Call Fone_shot] ++ build_events env n
     ++ [Run n p;
         Stdout (match content r1 with Some text => text | None => str r1 end
                 +:+ newline)])
  /\ interactive_while F a (Line line :: rest) n
     = after [Stdout (newline +:+ "You: ");
              Run (agent_id a) (strip line);
              Stdout (newline +:+ "Assistant: "
                      +:+ match content r2 with
                          | Some text => text
                          | None => str r2
                          end
                      +:+ newline)]
             (interactive_while F (mkAgent (agent_id a) obj2) rest n).
Proof.
  intros Hp Hb Hr1 Hs Hr2. split.
  - apply (main_one_shot_ok F env p stdin obj obj1 r1 n Hp Hb Hr1).
  - apply (loop_turn F a line rest n r2 obj2 Hs Hr2).
Qed.

Lemma C5_witness :
  stdout (snd (main bare_fw key_env (mkArgs false "hi") [] 0%nat))
  = ["TaskResult(hi)" +:+ newline]
  /\ stdout (snd (interactive_while echo_fw (@mkAgent echo_fw 0%nat 0%nat)
                                    [Line " hi "] 1%nat))
     = [ newline +:+ "You: ";
         newline +:+ "Assistant: echo: hi" +:+ newline;
         newline +:+ "You: ";
         newline +:+ "Exiting." +:+ newline ].
Proof.
  split.
  - pose proof (C5_reply_is_content_or_str
                  bare_fw key_env [] 0%nat "hi" 0%nat 1%nat
                  (mkResult None "TaskResult(hi)")
                  (@mkAgent bare_fw 0%nat 0%nat) "x" [] 1%nat
                  (mkResult None "TaskResult(x)")
                  ltac:(discriminate) ltac:(exists tt; split; reflexivity)
                  eq_refl eq_refl eq_refl) as [H _].
    rewrite H. reflexivity.
  - pose proof (C5_reply_is_content_or_str
                  echo_fw key_env [] 1%nat "hi" 0%nat 1%nat
                  (mkResult (Some "echo: hi") "TaskResult")
                  (@mkAgent echo_fw 0%nat 0%nat) " hi " [] 1%nat
                  (mkResult (Some "echo: hi") "TaskResult")
                  ltac:(discriminate) (echo_builds key_env)
                  eq_refl eq_refl eq_refl) as [_ H].
    rewrite H. reflexivity.
Defined.

(** C6.  In the interactive mode, after any lines that are no sentinels
    and that the agent answers, the end of input or an interrupt while a
    line is awaited prints the exit notice and ends the run with exit
    status 0; the turns submitted are those of the lines before, and no
    other.  No sentinel is needed. *)
Theorem C6_eof_or_interrupt_exits_gracefully (F : Framework)
        (env : gmap string string) (p : string) (lines : list string)
        (tail : list StdinEvent) (obj : fw_agent F) :
  GOOGLE_API_KEY env <> "" ->
  fw_import F = None ->
  builds F env obj ->
  Forall (fun line => is_sentinel (strip line) = false) lines ->
  answers F obj (map strip lines) = true ->
  tail = [] \/ (exists rest, tail = CtrlC :: rest) ->
  exists pre,
    run_script F env (mkArgs true p) (map Line lines ++ tail)
    = mkOutcome (pre ++ exit_events) 0
    /\ runs (pre ++ exit_events) = map (fun line => (0%nat, strip line)) lines.
Proof.
  intros Hkey Himp Hb Hlines Hans Htail.
  destruct (loop_lines_then_exit F lines tail Hlines Htail
                                 (mkAgent 0 obj) 1 Hans)
    as (pre & Heq & Hruns).
  exists ([Call Fmain; Call Finteractive_loop] ++ build_events env 0
          ++ [Stdout (banner +:+ newline)] ++ pre).
  unfold run_script.
  rewrite (script_is_main F env _ _ 0 Hkey Himp).
  rewrite (main_interactive F env p _ obj 0 Hb), Heq.
  split.
  - simpl. reflexivity.
  - simpl. rewrite runs_app, Hruns. simpl. rewrite app_nil_r. reflexivity.
Qed.

Lemma C6_witness :
  (exists pre,
      run_script echo_fw key_env (mkArgs true "")
                 (map Line ["hello"; "Quit it"] ++ [CtrlC; Line "unread"])
      = mkOutcome (pre ++ exit_events) 0
      /\ runs (pre ++ exit_events) = [(0%nat, "hello"); (0%nat, "Quit it")])
  /\ (exists pre,
        run_script bare_fw key_env (mkArgs true "") (map Line [] ++ [])
        = mkOutcome (pre ++ exit_events) 0
        /\ runs (pre ++ exit_events) = []).
Proof.
  split.
  - exact (C6_eof_or_interrupt_exits_gracefully
             echo_fw key_env "" ["hello"; "Quit it"] [CtrlC; Line "unread"]
             0%nat key_env_has_key eq_refl (echo_builds key_env)
             ltac:(repeat constructor) eq_refl
             (or_intror (ex_intro _ [Line "unread"] eq_refl))).
  - exact (C6_eof_or_interrupt_exits_gracefully
             bare_fw key_env "" [] [] 0%nat key_env_has_key eq_refl
             ltac:(exists tt; split; reflexivity)
             ltac:(constructor) eq_refl (or_introl eq_refl)).
Defined.

(** C7.  In a run that enters a mode, with a framework whose
    constructors accept the configuration, exactly one agent is
    constructed, and before any turn; every turn of the run is submitted
    to that agent; in the one-shot mode there is the one turn, with the
    prompt. *)
Theorem C7_one_agent_per_run (F : Framework) (env : gmap string string)
        (args : Namespace) (stdin : list StdinEvent) (obj : fw_agent F) :
  builds F env obj ->
  modes_run (events (run_script F env args stdin)) <> [] ->
  new_agents (events (run_script F env args stdin)) = [0%nat]
  /\ Forall (fun turn => fst turn = 0%nat)
            (runs (events (run_script F env args stdin)))
  /\ (exists post,
        events (run_script F env args stdin)
        = [Call Fmain;
           Call (if interactive args then Finteractive_loop else Fone_shot)]
          ++ build_events env 0 ++ post
        /\ new_agents post = [])
  /\ (modes_run (events (run_script F env args stdin)) = [Fone_shot] ->
      runs (events (run_script F env args stdin)) = [(0%nat, prompt args)]).
Proof.
  intros Hb Hmode.
  destruct (truthy (GOOGLE_API_KEY env)) eqn:Hkey;
    [apply truthy_true in Hkey|apply truthy_false in Hkey].
  2:{ exfalso. apply Hmode.
      rewrite (script_without_key F env args stdin Hkey). reflexivity. }
  destruct (fw_import F) as [text|] eqn:Himp.
  { exfalso. apply Hmode.
    rewrite (script_without_autogen F env args stdin text Hkey Himp).
    reflexivity. }
  revert Hmode. unfold run_script.
  rewrite (script_is_main F env args stdin 0 Hkey Himp).
  destruct args as [[|] p]; simpl.
  - (* interactive *)
    intros _. rewrite (main_interactive F env p stdin obj 0 Hb).
    destruct (loop_shape F stdin (mkAgent 0 obj) 1)
      as (res & evs & Heq & Hc & Hn & Hr).
    rewrite Heq, interpreter_exit_after.
    destruct (interpreter_exit_reads (res, 1%nat, evs)) as (_ & _ & Hn' & Hr').
    simpl in Hn', Hr'. simpl.
    rewrite Hn', Hr', Hn.
    split; [reflexivity|]. split; [exact Hr|]. split.
    + eexists. split; [reflexivity|]. simpl. exact (eq_trans Hn' Hn).
    + discriminate.
  - destruct (truthy p) eqn:Hp.
    + (* one-shot *)
      apply truthy_true in Hp. intros _.
      destruct (agent_run F obj p) as [[text|r] obj'] eqn:Hr.
      * rewrite (main_one_shot_raises F env p stdin obj obj' text 0 Hp Hb Hr).
        simpl. split; [reflexivity|]. split; [repeat constructor|]. split.
        -- eexists. split; [reflexivity|]. reflexivity.
        -- reflexivity.
      * rewrite (main_one_shot_ok F env p stdin obj obj' r 0 Hp Hb Hr).
        simpl. split; [reflexivity|]. split; [repeat constructor|]. split.
        -- eexists. split; [reflexivity|]. reflexivity.
        -- reflexivity.
    + (* usage: no mode *)
      destruct p; [|discriminate]. rewrite main_usage. simpl.
      intros Hmode. exfalso. apply Hmode. reflexivity.
Qed.

Lemma C7_witness :
  builds echo_fw key_env 0%nat
  /\ modes_run (events (run_script echo_fw key_env (mkArgs true "")
                                   [Line "a"; Line "b"; Line "c"])) <> []
  /\ new_agents (events (run_script echo_fw key_env (mkArgs true "")
                                    [Line "a"; Line "b"; Line "c"]))
     = [0%nat]
  /\ runs (events (run_script echo_fw key_env (mkArgs true "")
                              [Line "a"; Line "b"; Line "c"]))
     = [(0%nat, "a"); (0%nat, "b"); (0%nat, "c")].
Proof.
  assert (Hm : modes_run (events (run_script echo_fw key_env (mkArgs true "")
                                             [Line "a"; Line "b"; Line "c"]))
               <> []) by (vm_compute; discriminate).
  split; [exact (echo_builds key_env)|]. split; [exact Hm|]. split.
  - exact (proj1 (C7_one_agent_per_run
                    echo_fw key_env (mkArgs true "")
                    [Line "a"; Line "b"; Line "c"] 0%nat
                    (echo_builds key_env) Hm)).
  - reflexivity.
Defined.

(** C10.  In the interactive mode a line that is empty or made of
    whitespace only is no sentinel and is not skipped: the empty string
    is submitted to the agent as a turn and, when the agent answers, the
    reply is printed and the loop goes on, as for any other line. *)
Theorem C10_blank_line_is_a_turn (F : Framework) (a : Agent F)
        (line : string) (rest : list StdinEvent) (n : nat)
        (r : Result) (obj' : fw_agent F) :
  all_chars isspace line = true ->
  agent_run F (agent_obj a) "" = (inr r, obj') ->
  strip line = ""
  /\ is_sentinel (strip line) = false
  /\ interactive_while F a (Line line :: rest) n
     = after [Stdout (newline +:+ "You: ");
              Run (agent_id a) "";
              Stdout (newline +:+ "Assistant: " +:+ getattr_content r
                      +:+ newline)]
             (interactive_while F (mkAgent (agent_id a) obj') rest n).
Proof.
  intros Hblank Hr. apply strip_blank in Hblank.
  split; [exact Hblank|]. split; [rewrite Hblank; reflexivity|].
  pose proof (loop_turn F a line rest n r obj') as Hturn.
  rewrite Hblank in Hturn. apply Hturn; [reflexivity|exact Hr].
Qed.

Lemma C10_witness :
  all_chars isspace "   " = true
  /\ runs (snd (interactive_while echo_fw (@mkAgent echo_fw 7%nat 0%nat)
                                  [Line "   "; Line ""; Line "exit"] 8%nat))
     = [(7%nat, ""); (7%nat, "")].
Proof.
  split; [reflexivity|].
  pose proof (C10_blank_line_is_a_turn
                echo_fw (@mkAgent echo_fw 7%nat 0%nat) "   "
                [Line ""; Line "exit"] 8%nat
                (mkResult (Some "echo: ") "TaskResult") 1%nat
                eq_refl eq_refl) as (_ & _ & H).
  rewrite H. reflexivity.
Defined.

(** C8, as the specification states it, fails: the system prompt is
    taken as it stands, untrimmed, and the base URL loses its trailing
    slashes and keeps its surrounding whitespace. *)
Lemma C8_counterexample :
  SYSTEM_PROMPT padded_env = " Be brief. "
  /\ spec_resolve padded_env "SYSTEM_PROMPT" default_system_prompt = "Be brief."
  /\ BASE_URL padded_env = " http://localhost:8000/v1/ "
  /\ spec_resolve padded_env "GOOGLE_OPENAI_COMPAT_BASE_URL" default_base_url
     = "http://localhost:8000/v1/"
  /\ BASE_URL slash_env = "http://localhost:8000/v1"
  /\ spec_resolve slash_env "GOOGLE_OPENAI_COMPAT_BASE_URL" default_base_url
     = "http://localhost:8000/v1/"
  /\ ~ (forall env : gmap string string,
          GOOGLE_API_KEY env = spec_resolve env "GOOGLE_API_KEY" ""
          /\ MODEL_NAME env = spec_resolve env "GOOGLE_MODEL" default_model
          /\ BASE_URL env
             = spec_resolve env "GOOGLE_OPENAI_COMPAT_BASE_URL" default_base_url
          /\ SYSTEM_PROMPT env
             = spec_resolve env "SYSTEM_PROMPT" default_system_prompt).
Proof.
  split; [vm_compute; reflexivity|]. split; [vm_compute; reflexivity|].
  split; [vm_compute; reflexivity|]. split; [vm_compute; reflexivity|].
  split; [vm_compute; reflexivity|]. split; [vm_compute; reflexivity|].
  intros H. destruct (H padded_env) as (_ & _ & _ & Hs).
  vm_compute in Hs. discriminate.
Qed.

(** C8, amended.  The API key and the model name are the environment
    value trimmed of surrounding whitespace when the variable is set and
    not empty, and the default otherwise (for the key: the empty string).
    The base URL is the environment value when set and not empty and the
    default otherwise, without its trailing slashes and with its
    whitespace.  The system prompt is the environment value as it stands
    when set and not empty, and the default otherwise.  The temperature
    and the token limit are what [float] and [int] make of the value when
    the variable is set and parses, and the default otherwise. *)
Theorem C8_resolution_per_field (env : gmap string string) :
  GOOGLE_API_KEY env = spec_resolve env "GOOGLE_API_KEY" ""
  /\ MODEL_NAME env = spec_resolve env "GOOGLE_MODEL" default_model
  /\ BASE_URL env
     = match env !! "GOOGLE_OPENAI_COMPAT_BASE_URL" with
       | Some v => if truthy v then rstrip "/" v else default_base_url
       | None => default_base_url
       end
  /\ SYSTEM_PROMPT env
     = match env !! "SYSTEM_PROMPT" with
       | Some v => if truthy v then v else default_system_prompt
       | None => default_system_prompt
       end
  /\ TEMPERATURE env
     = match env !! "TEMPERATURE" with
       | Some v => match py_float v with
                   | Some f => f
                   | None => default_temperature
                   end
       | None => default_temperature
       end
  /\ MAX_TOKENS env
     = match env !! "MAX_TOKENS" with
       | Some v => match py_int v with
                   | Some n => n
                   | None => default_max_tokens
                   end
       | None => default_max_tokens
       end.
Proof.
  unfold GOOGLE_API_KEY, MODEL_NAME, BASE_URL, SYSTEM_PROMPT, TEMPERATURE,
    MAX_TOKENS, spec_resolve, getenv, getenv_or.
  split; [|split; [|split; [|split; [|split]]]].
  - destruct (env !! "GOOGLE_API_KEY") as [[|c v]|]; reflexivity.
  - destruct (env !! "GOOGLE_MODEL") as [[|c v]|]; reflexivity.
  - destruct (env !! "GOOGLE_OPENAI_COMPAT_BASE_URL") as [[|c v]|]; reflexivity.
  - destruct (env !! "SYSTEM_PROMPT") as [[|c v]|]; reflexivity.
  - destruct (env !! "TEMPERATURE") as [v|]; reflexivity.
  - destruct (env !! "MAX_TOKENS") as [v|]; reflexivity.
Qed.

(** C9, as the specification states it, fails: [MAX_TOKENS=0] resolves
    to 0 and [MAX_TOKENS= -5 ] to -5. *)
Lemma C9_counterexample :
  MAX_TOKENS zero_tokens_env = 0
  /\ MAX_TOKENS negative_tokens_env = -5
  /\ ~ (forall env : gmap string string, 0 < MAX_TOKENS env).
Proof.
  split; [vm_compute; reflexivity|]. split; [vm_compute; reflexivity|].
  intros H. specialize (H zero_tokens_env). vm_compute in H. discriminate.
Qed.

(** C9, amended.  The token limit is an integer: the default 1024, or the
    integer that [int] reads from the value of [MAX_TOKENS]; no sign
    check is made, so it is positive exactly when the variable is unset,
    does not parse, or parses to a positive integer. *)
Theorem C9_max_tokens_default_or_parsed (env : gmap string string) :
  (MAX_TOKENS env = 1024
   \/ exists v, env !! "MAX_TOKENS" = Some v
                /\ py_int v = Some (MAX_TOKENS env))
  /\ (0 < MAX_TOKENS env <->
      forall v n, env !! "MAX_TOKENS" = Some v -> py_int v = Some n -> 0 < n).
Proof.
  unfold MAX_TOKENS, getenv_or.
  destruct (env !! "MAX_TOKENS") as [v|] eqn:Hv; simpl.
  - destruct (py_int v) as [n|] eqn:Hp.
    + split; [right; eauto|]. split.
      * intros Hpos v' n' Hv' Hn'. congruence.
      * intros H. apply (H v n); auto.
    + split; [left; reflexivity|]. split.
      * intros _ v' n' Hv' Hn'. congruence.
      * intros _. reflexivity.
  - split; [left; reflexivity|]. split.
    + intros _ v' n' Hv'. discriminate.
    + intros _. reflexivity.
Qed.

End Claims.

(** * More properties of the program *)

(** ** Trimming *)

Section TrimFacts.
Import PyStr.

Lemma rstrip_by_idem (p : ascii -> bool) (s : string) :
  rstrip_by p (rstrip_by p s) = rstrip_by p s.
Proof.
  induction s as [|c s IH]; simpl; [reflexivity|].
  destruct (rstrip_by p s) as [|d r] eqn:Hr.
  - destruct (p c) eqn:Hc; simpl; [reflexivity|]. rewrite Hc. reflexivity.
  - simpl in IH. simpl. destruct (rstrip_by p r) as [|e r'] eqn:Hr'.
    + destruct (p d) eqn:Hd; [discriminate|]. rewrite IH. reflexivity.
    + rewrite IH. reflexivity.
Qed.

Lemma rstrip_by_keeps_head (p : ascii -> bool) (c : ascii) (s : string) :
  p c = false -> exists r, rstrip_by p (String c s) = String c r.
Proof.
  intros Hc. simpl. destruct (rstrip_by p s); [rewrite Hc|]; eauto.
Qed.

Lemma last_char_rstrip_by (p : ascii -> bool) (s : string) (c : ascii) :
  last_char (rstrip_by p s) = Some c -> p c = false.
Proof.
  induction s as [|d s IH]; simpl; [discriminate|].
  destruct (rstrip_by p s) as [|e r] eqn:Hr.
  - destruct (p d) eqn:Hd; simpl; [discriminate|].
    intros H. inversion H; subst. exact Hd.
  - simpl. exact IH.
Qed.

Lemma lstrip_by_stripped (p : ascii -> bool) (s : string) :
  (forall c, first_char s = Some c -> p c = false) -> lstrip_by p s = s.
Proof.
  destruct s as [|c s]; simpl; [reflexivity|].
  intros H. rewrite (H c eq_refl). reflexivity.
Qed.

Lemma first_char_strip (s : string) (c : ascii) :
  first_char (strip s) = Some c -> isspace c = false.
Proof.
  unfold strip. destruct (lstrip_by isspace s) as [|d t] eqn:Hl; simpl;
    [discriminate|].
  pose proof (lstrip_by_head _ _ _ _ Hl) as Hd.
  destruct (rstrip_by isspace t); [rewrite Hd|]; simpl;
    intros H; inversion H; subst; exact Hd.
Qed.

Lemma last_char_strip (s : string) (c : ascii) :
  last_char (strip s) = Some c -> isspace c = false.
Proof. apply last_char_rstrip_by. Qed.

(** Trimming twice is trimming once. *)
Lemma strip_idem (s : string) : strip (strip s) = strip s.
Proof.
  unfold strip at 1.
  rewrite (lstrip_by_stripped isspace (strip s) (first_char_strip s)).
  unfold strip. apply rstrip_by_idem.
Qed.

Lemma lstrip_by_app_all (p : ascii -> bool) (pad s : string) :
  all_chars p pad = true -> lstrip_by p (pad +:+ s) = lstrip_by p s.
Proof.
  induction pad as [|c pad IH]; [reflexivity|].
  change (String c pad +:+ s) with (String c (pad +:+ s)). simpl.
  intros H. apply andb_true_iff in H as [Hc Hp]. rewrite Hc. auto.
Qed.

Lemma rstrip_by_all (p : ascii -> bool) (s : string) :
  all_chars p s = true -> rstrip_by p s = "".
Proof.
  induction s as [|c s IH]; simpl; [reflexivity|].
  intros H. apply andb_true_iff in H as [Hc Hs]. rewrite (IH Hs), Hc.
  reflexivity.
Qed.

Lemma rstrip_by_app_all (p : ascii -> bool) (s pad : string) :
  all_chars p pad = true -> rstrip_by p (s +:+ pad) = rstrip_by p s.
Proof.
  intros Hp. induction s as [|c s IH].
  - change ("" +:+ pad) with pad. rewrite (rstrip_by_all p pad Hp). reflexivity.
  - change (String c s +:+ pad) with (String c (s +:+ pad)). simpl.
    rewrite IH. reflexivity.
Qed.

Lemma lstrip_by_app_r (p : ascii -> bool) (s pad : string) :
  all_chars p pad = true ->
  rstrip_by p (lstrip_by p (s +:+ pad)) = rstrip_by p (lstrip_by p s).
Proof.
  intros Hp. induction s as [|c s IH].
  - change ("" +:+ pad) with pad. rewrite (lstrip_by_all p pad Hp). reflexivity.
  - change (String c s +:+ pad) with (String c (s +:+ pad)). simpl.
    destruct (p c); [exact IH|].
    change (String c (s +:+ pad)) with (String c s +:+ pad).
    apply rstrip_by_app_all, Hp.
Qed.

(** Whitespace around a string does not show once it is trimmed. *)
Lemma strip_padding (before s after : string) :
  all_chars isspace before = true ->
  all_chars isspace after = true ->
  strip (before +:+ s +:+ after) = strip s.
Proof.
  intros Hb Ha. unfold strip.
  rewrite (lstrip_by_app_all isspace before _ Hb).
  apply lstrip_by_app_r, Ha.
Qed.

End TrimFacts.

(** ** The sentinels *)

Section SentinelFacts.
Import PyStr.

Lemma lower_char_letter (w c : ascii) :
  in_range 97 122 w = true ->
  lower_char c = w <-> letter_or_capital w c = true.
Proof.
  unfold lower_char, letter_or_capital, in_range, code.
  pose proof (N_ascii_bounded c) as Hc.
  intros Hw. apply andb_true_iff in Hw as [Hw1 Hw2].
  apply N.leb_le in Hw1, Hw2.
  rewrite orb_true_iff, Ascii.eqb_eq, N.eqb_eq.
  destruct ((65 <=? N_of_ascii c)%N && (N_of_ascii c <=? 90)%N) eqn:Hup; simpl.
  - apply andb_true_iff in Hup as [H1 H2]. apply N.leb_le in H1, H2. split.
    + intros <-. right. rewrite N_ascii_embedding; lia.
    + intros [->|H].
      * lia.
      * rewrite H. apply ascii_N_embedding.
  - destruct ((192 <=? N_of_ascii c)%N && (N_of_ascii c <=? 222)%N
              && negb ((215 <=? N_of_ascii c)%N && (N_of_ascii c <=? 215)%N))
      eqn:Hhi.
    + apply andb_true_iff in Hhi as [Hhi _].
      apply andb_true_iff in Hhi as [H1 H2]. apply N.leb_le in H1, H2. split.
      * intros <-. rewrite N_ascii_embedding in Hw2; lia.
      * intros [->|H]; lia.
    + split; [intros ->; left; reflexivity|].
      intros [->|H]; [reflexivity|].
      apply andb_false_iff in Hup as [Hup|Hup]; apply N.leb_gt in Hup; lia.
Qed.

Lemma lower_case_variant (word s : string) :
  all_chars (in_range 97 122) word = true ->
  lower s = word <-> case_variant word s = true.
Proof.
  revert s. induction word as [|w word IH]; intros [|c s] Hw; simpl;
    try (split; intros H; discriminate); [tauto|].
  simpl in Hw. apply andb_true_iff in Hw as [Hw1 Hw2].
  rewrite andb_true_iff, <- (IH s Hw2), <- (lower_char_letter w c Hw1).
  split; [intros H; inversion H; auto|intros [-> ->]; reflexivity].
Qed.

End SentinelFacts.

(** ** Every way a run can go *)

Section RunFacts.
Import PyStr Config.

Context (F : Framework).

Lemma build_assistant_client_refused (env : gmap string string) (n : nat)
      (text : string) :
  OpenAIChatCompletionClient F (GOOGLE_API_KEY env) (MODEL_NAME env)
    (BASE_URL env) = inl text ->
  build_assistant F env n
  = (Raise (FrameworkError text), n,
     [Call Fbuild_assistant; Call Fbuild_model_client]).
Proof.
  intros Hc. unfold build_assistant, build_model_client. run_monad.
  rewrite Hc. reflexivity.
Qed.

Lemma build_assistant_agent_refused (env : gmap string string) (n : nat)
      (client : fw_client F) (text : string) :
  OpenAIChatCompletionClient F (GOOGLE_API_KEY env) (MODEL_NAME env)
    (BASE_URL env) = inr client ->
  AssistantAgent F "assistant" client (SYSTEM_PROMPT env) = inl text ->
  build_assistant F env n
  = (Raise (FrameworkError text), n,
     [Call Fbuild_assistant; Call Fbuild_model_client;
      NewClient (GOOGLE_API_KEY env) (MODEL_NAME env) (BASE_URL env)]).
Proof.
  intros Hc Ha. unfold build_assistant, build_model_client. run_monad.
  rewrite Hc. simpl. rewrite Ha. reflexivity.
Qed.

(** A mode whose agent cannot be built does nothing more. *)
Lemma main_build_fails (env : gmap string string) (args : Namespace)
      (stdin : list StdinEvent) (n n' : nat) (e : exn) (evs : list Event) :
  interactive args = true \/ prompt args <> "" ->
  build_assistant F env n = (Raise e, n', evs) ->
  main F env args stdin n
  = (Raise e, n', [Call Fmain; Call (selected_mode args)] ++ evs).
Proof.
  intros Hmode Hb. destruct args as [[|] p]; simpl in *.
  - unfold main, interactive_loop, selected_mode. simpl.
    unfold bind at 1. unfold emit at 1. unfold bind at 1. unfold emit at 1.
    unfold bind at 1. rewrite Hb. reflexivity.
  - destruct Hmode as [Hm|Hp]; [discriminate|]. apply truthy_true in Hp.
    unfold main, one_shot, selected_mode. simpl. rewrite Hp.
    unfold bind at 1. unfold emit at 1. unfold bind at 1.
    unfold bind at 1. unfold emit at 1. unfold bind at 1.
    rewrite Hb. reflexivity.
Qed.

(** The loop emits a session and ends as a session ends. *)
Lemma loop_session (stdin : list StdinEvent) :
  forall (a : Agent F) (n : nat),
  exists res evs,
    interactive_while F a stdin n = (res, n, evs)
    /\ session_trace (agent_id a) evs res.
Proof.
  induction stdin as [|ev rest IH]; intros a n.
  - rewrite loop_eof. do 2 eexists. split; [reflexivity|constructor].
  - destruct ev as [line|].
    + destruct (is_sentinel (strip line)) eqn:Hs.
      * rewrite (loop_sentinel F a line rest n Hs).
        do 2 eexists. split; [reflexivity|constructor].
      * destruct (agent_run F (agent_obj a) (strip line)) as [[text|r] obj'] eqn:Hr.
        -- rewrite (loop_turn_raises F a line rest n text obj' Hs Hr).
           do 2 eexists. split; [reflexivity|constructor].
        -- rewrite (loop_turn F a line rest n r obj' Hs Hr).
           destruct (IH (mkAgent (agent_id a) obj') n) as (res & evs & Heq & Ht).
           rewrite Heq. do 2 eexists. split; [reflexivity|].
           apply session_turn. exact Ht.
    + rewrite loop_interrupt. do 2 eexists. split; [reflexivity|constructor].
Qed.

Lemma session_result (id : nat) (evs : list Event) (res : Res unit) :
  session_trace id evs res ->
  res = Ret tt \/ exists text, res = Raise (FrameworkError text).
Proof. induction 1; eauto. Qed.

(** A session builds nothing, enters no function and writes nothing to
    standard error; its turns all go to the one agent. *)
Lemma session_reads (id : nat) (evs : list Event) (res : Res unit) :
  session_trace id evs res ->
  clients evs = [] /\ agents_made evs = [] /\ new_agents evs = []
  /\ errors evs = [] /\ calls evs = [] /\ modes_run evs = []
  /\ Forall (fun turn => fst turn = id) (runs evs).
Proof.
  induction 1 as [| | |task reply evs res _ (H1 & H2 & H3 & H4 & H5 & H6 & H7)];
    simpl; auto 10.
Qed.

(** The script goes one of the nine ways. *)
Lemma run_cases (env : gmap string string) (args : Namespace)
      (stdin : list StdinEvent) :
  run_case F env args (run_script F env args stdin).
Proof.
  destruct (truthy (GOOGLE_API_KEY env)) eqn:Hkey;
    [apply truthy_true in Hkey|apply truthy_false in Hkey].
  2:{ rewrite (script_without_key F env args stdin Hkey). constructor. exact Hkey. }
  destruct (fw_import F) as [text|] eqn:Himp.
  { rewrite (script_without_autogen F env args stdin text Hkey Himp).
    constructor; assumption. }
  unfold run_script. rewrite (script_is_main F env args stdin 0 Hkey Himp).
  destruct (interactive args || truthy (prompt args)) eqn:Hsel.
  - assert (Hmode : interactive args = true \/ prompt args <> "").
    { apply orb_true_iff in Hsel as [H|H]; [left; exact H|].
      right. apply truthy_true, H. }
    destruct (OpenAIChatCompletionClient F (GOOGLE_API_KEY env)
                (MODEL_NAME env) (BASE_URL env)) as [text|client] eqn:Hc.
    { rewrite (main_build_fails env args stdin 0 _ _ _ Hmode
                 (build_assistant_client_refused env 0 text Hc)).
      simpl. apply (run_client_refused F env args text); assumption. }
    destruct (AssistantAgent F "assistant" client (SYSTEM_PROMPT env))
      as [text|obj] eqn:Ha.
    { rewrite (main_build_fails env args stdin 0 _ _ _ Hmode
                 (build_assistant_agent_refused env 0 client text Hc Ha)).
      simpl. apply (run_agent_refused F env args client text); assumption. }
    assert (Hb : builds F env obj) by (exists client; auto).
    destruct args as [[|] p]; simpl in *.
    + rewrite (main_interactive F env p stdin obj 0 Hb).
      destruct (loop_session stdin (mkAgent 0 obj) 1) as (res & evs & Heq & Ht).
      rewrite Heq. simpl.
      destruct (session_result _ _ _ Ht) as [->|[text ->]]; simpl.
      * apply (run_session_ends F env _ obj evs); auto.
      * replace (Call Fmain :: Call Finteractive_loop :: Call Fbuild_assistant
                 :: Call Fbuild_model_client
                 :: NewClient (GOOGLE_API_KEY env) (MODEL_NAME env) (BASE_URL env)
                 :: NewAgent 0 "assistant" (SYSTEM_PROMPT env)
                 :: (Stdout (banner +:+ newline) :: evs) ++ [Traceback text])
          with ([Call Fmain; Call Finteractive_loop] ++ build_events env 0
                ++ [Stdout (banner +:+ newline)] ++ evs ++ [Traceback text])
          by reflexivity.
        apply (run_session_dies F env _ obj evs text); auto.
    + apply truthy_true in Hsel.
      destruct (agent_run F obj p) as [[text|r] obj'] eqn:Hr.
      * rewrite (main_one_shot_raises F env p stdin obj obj' text 0 Hsel Hb Hr).
        simpl. apply (run_one_shot_raises F env (mkArgs false p) obj obj' text); auto.
      * rewrite (main_one_shot_ok F env p stdin obj obj' r 0 Hsel Hb Hr).
        simpl. apply (run_one_shot_answers F env (mkArgs false p) obj obj' r); auto.
  - apply orb_false_iff in Hsel as [Hi Hp]. apply truthy_false in Hp.
    destruct args as [i p]. simpl in *. subst. rewrite main_usage. simpl.
    apply run_usage; auto.
Qed.

(** What the loop does with a line depends on the line trimmed only. *)
Lemma loop_reads_trimmed (a : Agent F) (line line' : string)
      (rest : list StdinEvent) (n : nat) :
  strip line = strip line' ->
  interactive_while F a (Line line :: rest) n
  = interactive_while F a (Line line' :: rest) n.
Proof.
  intros H. simpl. run_monad. rewrite H. reflexivity.
Qed.

(** The loop over lines that are turns, and then over what follows. *)
Lemma loop_prefix (lines : list string) :
  Forall (fun line => is_sentinel (strip line) = false) lines ->
  forall (a : Agent F),
  answers F (agent_obj a) (map strip lines) = true ->
  exists pre,
    runs pre = map (fun line => (agent_id a, strip line)) lines
    /\ errors pre = []
    /\ forall (tail : list StdinEvent) (n : nat),
        interactive_while F a (map Line lines ++ tail) n
        = after pre
            (interactive_while F
               (mkAgent (agent_id a)
                        (agent_after F (agent_obj a) (map strip lines)))
               tail n).
Proof.
  induction 1 as [|line lines Hs _ IH]; intros a Hans.
  - exists []. split; [reflexivity|]. split; [reflexivity|].
    intros tail n. simpl. destruct a as [id obj]. simpl.
    destruct (interactive_while F (mkAgent id obj) tail n) as [[res n'] evs].
    reflexivity.
  - simpl in Hans.
    destruct (agent_run F (agent_obj a) (strip line)) as [[text|r] obj'] eqn:Hr;
      [discriminate|].
    destruct (IH (mkAgent (agent_id a) obj') Hans) as (pre & Hruns & Herr & Heq).
    exists (turn_events (agent_id a) (strip line) (getattr_content r) ++ pre).
    split; [simpl; rewrite Hruns; reflexivity|].
    split; [simpl; exact Herr|].
    intros tail n. simpl map. simpl app at 1.
    rewrite (loop_turn F a line _ n r obj' Hs Hr), Heq. simpl. rewrite Hr. simpl.
    destruct (interactive_while F _ tail n) as [[res n'] evs]. reflexivity.
Qed.

End RunFacts.

(** ** More on reading traces, and blank numbers *)

Section MoreFacts.
Import PyStr PyNum Config.

Lemma clients_app (xs ys : list Event) :
  clients (xs ++ ys) = clients xs ++ clients ys.
Proof. induction xs as [|[] xs IH]; simpl; rewrite ?IH; reflexivity. Qed.

Lemma agents_made_app (xs ys : list Event) :
  agents_made (xs ++ ys) = agents_made xs ++ agents_made ys.
Proof. induction xs as [|[] xs IH]; simpl; rewrite ?IH; reflexivity. Qed.

Lemma errors_app (xs ys : list Event) :
  errors (xs ++ ys) = errors xs ++ errors ys.
Proof. induction xs as [|[] xs IH]; simpl; rewrite ?IH; reflexivity. Qed.

Lemma stdout_app (xs ys : list Event) :
  stdout (xs ++ ys) = stdout xs ++ stdout ys.
Proof. induction xs as [|[] xs IH]; simpl; rewrite ?IH; reflexivity. Qed.

Lemma prefix_self (s : string) : String.prefix s s = true.
Proof.
  induction s as [|c s IH]; simpl; [reflexivity|].
  rewrite IH. destruct (ascii_dec c c); congruence.
Qed.

Lemma contains_self (s : string) : contains s s = true.
Proof.
  destruct s as [|c s]; [reflexivity|].
  unfold contains; fold contains. rewrite prefix_self. reflexivity.
Qed.

Lemma contains_after (before s t : string) :
  contains s t = true -> contains s (before +:+ t) = true.
Proof.
  induction before as [|c before IH]; intros H; [exact H|].
  change (String c before +:+ t) with (String c (before +:+ t)).
  unfold contains; fold contains. rewrite (IH H). apply orb_true_r.
Qed.

Lemma system_prompt_not_empty (env : gmap string string) :
  SYSTEM_PROMPT env <> "".
Proof.
  unfold SYSTEM_PROMPT, getenv, or_else.
  destruct (env !! "SYSTEM_PROMPT") as [[|c v]|]; simpl; discriminate.
Qed.

Lemma base_url_no_trailing_slash (env : gmap string string) :
  last_char (BASE_URL env) <> Some "/"%char.
Proof.
  intros H. apply last_char_rstrip_by in H. discriminate.
Qed.

(** After [to_ascii], a whitespace character is C whitespace or one of
    FS, GS, RS, US. *)
Lemma to_ascii_space (c : ascii) :
  isspace c = true ->
  c_isspace (to_ascii_char c) = true
  \/ (in_range 28 31 (to_ascii_char c) = true /\ to_ascii_char c = c).
Proof.
  destruct c as [[] [] [] [] [] [] [] []]; vm_compute; intros H;
    try discriminate; auto.
Qed.

(** What is left of a blank string once its C whitespace is taken from
    the front: nothing, or something that starts with FS, GS, RS or US. *)
Lemma lstrip_blank (s : string) :
  all_chars isspace s = true ->
  lstrip_by c_isspace (to_ascii s) = ""
  \/ exists c r, lstrip_by c_isspace (to_ascii s) = String c r
                 /\ in_range 28 31 c = true.
Proof.
  induction s as [|c s IH]; simpl; [auto|].
  intros H. apply andb_true_iff in H as [Hc Hs].
  destruct (to_ascii_space c Hc) as [Hsp|[Hr He]].
  - rewrite Hsp. auto.
  - destruct (c_isspace (to_ascii_char c)); [auto|]. right. eauto.
Qed.

Lemma separator_is_nothing_else (c : ascii) :
  in_range 28 31 c = true ->
  c_isspace c = false /\ is_digit c = false /\ is_underscore c = false
  /\ c <> "-"%char /\ c <> "+"%char /\ c <> "."%char
  /\ lower_char c <> "i"%char /\ lower_char c <> "n"%char.
Proof.
  destruct c as [[] [] [] [] [] [] [] []]; vm_compute; intros H;
    try discriminate; repeat split; discriminate.
Qed.

(** [int] rejects the empty string and every blank one. *)
Lemma py_int_blank (s : string) : all_chars isspace s = true -> py_int s = None.
Proof.
  intros H. unfold py_int.
  destruct (lstrip_blank s H) as [->|(c & r & -> & Hc)]; [reflexivity|].
  destruct (separator_is_nothing_else c Hc)
    as (_ & Hd & Hu & Hm & Hp & _).
  assert (Hsign : take_sign (String c r) = (false, String c r)).
  { unfold take_sign.
    destruct c as [[] [] [] [] [] [] [] []]; try reflexivity; congruence. }
  rewrite Hsign.
  assert (Hnu : match String c r with
                | String "_"%char _ => @None Z
                | _ => match scan_int "000"%char 0%N 0%nat (String c r) with
                       | Some (v, n, rest) =>
                           if (n =? 0)%nat then None
                           else if (max_str_digits <? n)%nat then None
                           else match lstrip_by c_isspace rest with
                                | EmptyString => Some (Z.of_N v)
                                | String _ _ => None
                                end
                       | None => None
                       end
                end = None).
  { simpl scan_int. rewrite Hd, Hu. simpl.
    destruct c as [[] [] [] [] [] [] [] []]; reflexivity. }
  exact Hnu.
Qed.

Lemma float_of_separator (c : ascii) (x : string) :
  in_range 28 31 c = true ->
  match drop_underscores "000"%char (String c x) with
  | Some s2 =>
      let '(neg, s3) := take_sign s2 in
      match parse_inf_or_nan neg s3 with
      | Some f => Some f
      | None => parse_decimal neg s3
      end
  | None => None
  end = None.
Proof.
  intros Hc.
  assert (E : drop_underscores "000"%char (String c x)
              = match drop_underscores c x with
                | Some r => Some (String c r)
                | None => None
                end).
  { destruct c as [[] [] [] [] [] [] [] []];
      try (vm_compute in Hc; discriminate Hc); reflexivity. }
  rewrite E. destruct (drop_underscores c x) as [t|]; [|reflexivity].
  destruct c as [[] [] [] [] [] [] [] []];
    try (vm_compute in Hc; discriminate Hc); reflexivity.
Qed.

(** [float] rejects the empty string and every blank one. *)
Lemma py_float_blank (s : string) :
  all_chars isspace s = true -> py_float s = None.
Proof.
  intros H. unfold py_float.
  destruct (lstrip_blank s H) as [->|(c & r & -> & Hc)]; [reflexivity|].
  destruct (separator_is_nothing_else c Hc) as (Hsp & _).
  destruct (rstrip_by_keeps_head c_isspace c r Hsp) as [x ->].
  apply float_of_separator, Hc.
Qed.

End MoreFacts.

(** * More properties, one by one *)

Section Extras.
  Import PyStr PyNum Config.

(** X1.  With the key set and the autogen packages missing, the script
    ends with exit status 1 and one message on standard error that
    carries the text of the import error; [main] is not entered. *)
Theorem X1_missing_packages_stop_startup (F : Framework)
        (env : gmap string string) (args : Namespace)
        (stdin : list StdinEvent) (text : string) :
  GOOGLE_API_KEY env <> "" ->
  fw_import F = Some text ->
  run_script F env args stdin
  = mkOutcome [Stderr (import_error_message text +:+ newline)] 1
  /\ contains ("Import error: " +:+ text) (import_error_message text) = true.
Proof.
  intros Hkey Himp. split.
  - apply script_without_autogen; assumption.
  - unfold import_error_message.
    apply contains_after, (contains_after newline), contains_self.
Qed.

Lemma X1_witness :
  GOOGLE_API_KEY key_env <> ""
  /\ fw_import absent_fw = Some "No module named 'autogen_agentchat'"
  /\ exit_status (run_script absent_fw key_env (mkArgs true "") []) = 1.
Proof.
  split; [exact key_env_has_key|]. split; [reflexivity|].
  rewrite (proj1 (X1_missing_packages_stop_startup
                    absent_fw key_env (mkArgs true "") []
                    "No module named 'autogen_agentchat'"
                    key_env_has_key eq_refl)).
  reflexivity.
Defined.

(** X2.  When the model client's constructor raises, the run ends there
    with a traceback and exit status 1, in either mode: the agent's
    constructor is not called, nothing is written to standard output and
    standard input is not read. *)
Theorem X2_client_refused_ends_run (F : Framework)
        (env : gmap string string) (args : Namespace)
        (stdin : list StdinEvent) (text : string) :
  GOOGLE_API_KEY env <> "" ->
  fw_import F = None ->
  interactive args = true \/ prompt args <> "" ->
  OpenAIChatCompletionClient F (GOOGLE_API_KEY env) (MODEL_NAME env)
    (BASE_URL env) = inl text ->
  run_script F env args stdin
  = mkOutcome [Call Fmain; Call (selected_mode args);
               Call Fbuild_assistant; Call Fbuild_model_client;
               Traceback text] 1.
Proof.
  intros Hkey Himp Hmode Hc. unfold run_script.
  rewrite (script_is_main F env args stdin 0 Hkey Himp).
  rewrite (main_build_fails F env args stdin 0 _ _ _ Hmode
             (build_assistant_client_refused F env 0 text Hc)).
  reflexivity.
Qed.

Lemma X2_witness :
  OpenAIChatCompletionClient strict_fw (GOOGLE_API_KEY other_model_env)
    (MODEL_NAME other_model_env) (BASE_URL other_model_env)
  = inl "ValueError: model_info is required"
  /\ stdout (events (run_script strict_fw other_model_env (mkArgs true "")
                                [Line "hello"])) = []
  /\ exit_status (run_script strict_fw other_model_env (mkArgs false "hi") [])
     = 1.
Proof.
  assert (Hkey : GOOGLE_API_KEY other_model_env <> "")
    by (vm_compute; discriminate).
  assert (Hc : OpenAIChatCompletionClient strict_fw
                 (GOOGLE_API_KEY other_model_env)
                 (MODEL_NAME other_model_env) (BASE_URL other_model_env)
               = inl "ValueError: model_info is required")
    by (vm_compute; reflexivity).
  assert (Hp : prompt (mkArgs false "hi") <> "") by discriminate.
  split; [exact Hc|]. split.
  - rewrite (X2_client_refused_ends_run
               strict_fw other_model_env (mkArgs true "") [Line "hello"] _
               Hkey eq_refl (or_introl eq_refl) Hc).
    reflexivity.
  - rewrite (X2_client_refused_ends_run
               strict_fw other_model_env (mkArgs false "hi") [] _
               Hkey eq_refl (or_intror Hp) Hc).
    reflexivity.
Defined.

(** X3.  When the agent's constructor raises, the client has been made
    and the run ends with a traceback and exit status 1: no agent exists,
    no banner is printed and no turn is submitted. *)
Theorem X3_agent_refused_ends_run (F : Framework)
        (env : gmap string string) (args : Namespace)
        (stdin : list StdinEvent) (client : fw_client F) (text : string) :
  GOOGLE_API_KEY env <> "" ->
  fw_import F = None ->
  interactive args = true \/ prompt args <> "" ->
  OpenAIChatCompletionClient F (GOOGLE_API_KEY env) (MODEL_NAME env)
    (BASE_URL env) = inr client ->
  AssistantAgent F "assistant" client (SYSTEM_PROMPT env) = inl text ->
  run_script F env args stdin
  = mkOutcome [Call Fmain; Call (selected_mode args);
               Call Fbuild_assistant; Call Fbuild_model_client;
               NewClient (GOOGLE_API_KEY env) (MODEL_NAME env) (BASE_URL env);
               Traceback text] 1.
Proof.
  intros Hkey Himp Hmode Hc Ha. unfold run_script.
  rewrite (script_is_main F env args stdin 0 Hkey Himp).
  rewrite (main_build_fails F env args stdin 0 _ _ _ Hmode
             (build_assistant_agent_refused F env 0 client text Hc Ha)).
  reflexivity.
Qed.

Lemma X3_witness :
  new_agents (events (run_script strict_fw refused_prompt_env
                                 (mkArgs true "") [Line "hello"])) = []
  /\ exit_status (run_script strict_fw refused_prompt_env
                             (mkArgs true "") [Line "hello"]) = 1.
Proof.
  assert (Hkey : GOOGLE_API_KEY refused_prompt_env <> "")
    by (vm_compute; discriminate).
  assert (Hc : OpenAIChatCompletionClient strict_fw
                 (GOOGLE_API_KEY refused_prompt_env)
                 (MODEL_NAME refused_prompt_env) (BASE_URL refused_prompt_env)
               = inr "gemini-2.0-flash")
    by (vm_compute; reflexivity).
  assert (Ha : AssistantAgent strict_fw "assistant" "gemini-2.0-flash"
                 (SYSTEM_PROMPT refused_prompt_env)
               = inl "ValueError: system message refused")
    by (vm_compute; reflexivity).
  rewrite (X3_agent_refused_ends_run
             strict_fw refused_prompt_env (mkArgs true "") [Line "hello"]
             "gemini-2.0-flash" _ Hkey eq_refl (or_introl eq_refl) Hc Ha).
  split; reflexivity.
Defined.

(** X4.  A model client made in a run is the only one, and it is made
    with the resolved key, model name and base URL: a key that is not
    empty and has no whitespace around it, a model name with no
    whitespace around it, and a base URL that does not end in a slash. *)
Theorem X4_client_gets_resolved_settings (F : Framework)
        (env : gmap string string) (args : Namespace)
        (stdin : list StdinEvent) (k m u : string) :
  In (k, m, u) (clients (events (run_script F env args stdin))) ->
  clients (events (run_script F env args stdin)) = [(k, m, u)]
  /\ k = GOOGLE_API_KEY env /\ m = MODEL_NAME env /\ u = BASE_URL env
  /\ k <> "" /\ strip k = k /\ strip m = m
  /\ last_char u <> Some "/"%char.
Proof.
  assert (Hval : GOOGLE_API_KEY env <> "" ->
                 forall k m u,
                 In (k, m, u)
                    [(GOOGLE_API_KEY env, MODEL_NAME env, BASE_URL env)] ->
                 [(GOOGLE_API_KEY env, MODEL_NAME env, BASE_URL env)]
                 = [(k, m, u)]
                 /\ k = GOOGLE_API_KEY env /\ m = MODEL_NAME env
                 /\ u = BASE_URL env
                 /\ k <> "" /\ strip k = k /\ strip m = m
                 /\ last_char u <> Some "/"%char).
  { intros Hkey k' m' u' [H|[]]. inversion H; subst.
    split; [reflexivity|]. split; [reflexivity|]. split; [reflexivity|].
    split; [reflexivity|]. split; [exact Hkey|].
    split; [apply strip_idem|]. split; [apply strip_idem|].
    apply base_url_no_trailing_slash. }
  destruct (run_cases F env args stdin)
    as [Hk|t Hk Hi|Hk Hi Hm Hp|t Hk Hi Hm Hc|c t Hk Hi Hm Hc Ha
        |obj evs Hk Hi Hm Hb Ht|obj evs t Hk Hi Hm Hb Ht
        |obj obj' t Hk Hi Hm Hp Hb Hr|obj obj' r Hk Hi Hm Hp Hb Hr];
    simpl; rewrite ?clients_app;
    try match goal with
        | Ht : session_trace _ _ _ |- _ =>
            destruct (session_reads _ _ _ Ht) as (-> & _)
        end;
    simpl; intros Hin; try contradiction; apply (Hval Hk); exact Hin.
Qed.

Lemma X4_witness :
  In ("k-123", "gemini-2.0-flash", "http://localhost:8000/v1")
     (clients (events (run_script echo_fw slash_env (mkArgs false "hi") [])))
  /\ last_char "http://localhost:8000/v1" <> Some "/"%char.
Proof.
  assert (H : In ("k-123", "gemini-2.0-flash", "http://localhost:8000/v1")
                 (clients (events (run_script echo_fw slash_env
                                              (mkArgs false "hi") []))))
    by (vm_compute; left; reflexivity).
  split; [exact H|].
  apply (X4_client_gets_resolved_settings
           echo_fw slash_env (mkArgs false "hi") [] _ _ _ H).
Defined.

(** X5.  An agent made in a run is the only one; its name is
    "assistant" and its system message is the resolved system prompt,
    which is never empty. *)
Theorem X5_agent_gets_name_and_prompt (F : Framework)
        (env : gmap string string) (args : Namespace)
        (stdin : list StdinEvent) (name sys : string) :
  In (name, sys) (agents_made (events (run_script F env args stdin))) ->
  agents_made (events (run_script F env args stdin)) = [(name, sys)]
  /\ name = "assistant" /\ sys = SYSTEM_PROMPT env /\ sys <> "".
Proof.
  assert (Hval : forall name sys,
                 In (name, sys) [("assistant", SYSTEM_PROMPT env)] ->
                 [("assistant", SYSTEM_PROMPT env)] = [(name, sys)]
                 /\ name = "assistant" /\ sys = SYSTEM_PROMPT env
                 /\ sys <> "").
  { intros name' sys' [H|[]]. inversion H; subst.
    split; [reflexivity|]. split; [reflexivity|]. split; [reflexivity|].
    apply system_prompt_not_empty. }
  destruct (run_cases F env args stdin)
    as [Hk|t Hk Hi|Hk Hi Hm Hp|t Hk Hi Hm Hc|c t Hk Hi Hm Hc Ha
        |obj evs Hk Hi Hm Hb Ht|obj evs t Hk Hi Hm Hb Ht
        |obj obj' t Hk Hi Hm Hp Hb Hr|obj obj' r Hk Hi Hm Hp Hb Hr];
    simpl; rewrite ?agents_made_app;
    try match goal with
        | Ht : session_trace _ _ _ |- _ =>
            destruct (session_reads _ _ _ Ht) as (_ & -> & _)
        end;
    simpl; intros Hin; try contradiction; apply Hval; exact Hin.
Qed.

Lemma X5_witness :
  In ("assistant", " Be brief. ")
     (agents_made (events (run_script echo_fw padded_env
                                      (mkArgs true "") [])))
  /\ agents_made (events (run_script echo_fw padded_env (mkArgs true "") []))
     = [("assistant", " Be brief. ")].
Proof.
  assert (H : In ("assistant", " Be brief. ")
                 (agents_made (events (run_script echo_fw padded_env
                                                  (mkArgs true "") []))))
    by (vm_compute; left; reflexivity).
  split; [exact H|].
  apply (X5_agent_gets_name_and_prompt
           echo_fw padded_env (mkArgs true "") [] _ _ H).
Defined.


(** X7.  Whitespace before and after a line plays no part: the loop does
    with the padded line what it does with the line. *)
Theorem X7_padding_is_ignored (F : Framework) (a : Agent F)
        (before line after : string) (rest : list StdinEvent) (n : nat) :
  all_chars isspace before = true ->
  all_chars isspace after = true ->
  interactive_while F a (Line (before +:+ line +:+ after) :: rest) n
  = interactive_while F a (Line line :: rest) n.
Proof.
  intros Hb Ha. apply loop_reads_trimmed, strip_padding; assumption.
Qed.

Lemma X7_witness :
  interactive_while echo_fw (@mkAgent echo_fw 0%nat 0%nat)
                    [Line ("  " +:+ "quit" +:+ newline); Line "unread"] 1%nat
  = (Ret tt, 1%nat, goodbye_events).
Proof.
  rewrite (X7_padding_is_ignored
             echo_fw (@mkAgent echo_fw 0%nat 0%nat) "  " "quit" newline
             [Line "unread"] 1%nat eq_refl eq_refl).
  reflexivity.
Defined.

(** X8.  The lines that end the loop are, once trimmed, the words "exit"
    and "quit" with each letter in either case, and no others; they have
    four characters. *)
Theorem X8_sentinels_are_case_variants (s : string) :
  (is_sentinel s = true
   <-> case_variant "exit" s = true \/ case_variant "quit" s = true)
  /\ (is_sentinel s = true -> String.length s = 4%nat).
Proof.
  assert (Hiff : is_sentinel s = true
                 <-> case_variant "exit" s = true
                     \/ case_variant "quit" s = true).
  { rewrite is_sentinel_iff.
    rewrite (lower_case_variant "exit" s eq_refl).
    rewrite (lower_case_variant "quit" s eq_refl). tauto. }
  split; [exact Hiff|].
  intros H. apply Hiff in H.
  destruct s as [|c1 [|c2 [|c3 [|c4 [|c5 s]]]]]; simpl in H;
    try (destruct H; discriminate); try reflexivity;
    destruct H as [H|H]; rewrite ?andb_false_r in H; discriminate.
Qed.



(** X11.  A [MAX_TOKENS] or [TEMPERATURE] that is set to the empty
    string or to whitespace only gives the default, 1024 or 0.3. *)
Theorem X11_blank_number_gives_default (env : gmap string string)
        (v : string) :
  all_chars isspace v = true ->
  (env !! "MAX_TOKENS" = Some v -> MAX_TOKENS env = 1024)
  /\ (env !! "TEMPERATURE" = Some v -> TEMPERATURE env = F_dec false 3 (-1)).
Proof.
  intros Hblank. split; intros Hv.
  - unfold MAX_TOKENS, getenv_or. rewrite Hv. simpl.
    rewrite (py_int_blank v Hblank). reflexivity.
  - unfold TEMPERATURE, getenv_or. rewrite Hv. simpl.
    rewrite (py_float_blank v Hblank). reflexivity.
Qed.

Lemma X11_witness :
  MAX_TOKENS blank_values_env = 1024
  /\ TEMPERATURE blank_values_env = F_dec false 3 (-1).
Proof.
  split.
  - apply (proj1 (X11_blank_number_gives_default blank_values_env " " eq_refl)).
    vm_compute. reflexivity.
  - apply (proj2 (X11_blank_number_gives_default blank_values_env "" eq_refl)).
    vm_compute. reflexivity.
Defined.



(** X13.  In the interactive mode, after any lines that are no sentinels
    and that the agent answers, a line on which the agent raises ends the
    process with a traceback and exit status 1: no reply is printed for
    it, and what follows on standard input is not read. *)
Theorem X13_raising_turn_ends_process (F : Framework)
        (env : gmap string string) (p : string) (lines : list string)
        (line text : string) (obj obj' : fw_agent F) :
  GOOGLE_API_KEY env <> "" ->
  fw_import F = None ->
  builds F env obj ->
  Forall (fun l => is_sentinel (strip l) = false) lines ->
  answers F obj (map strip lines) = true ->
  is_sentinel (strip line) = false ->
  agent_run F (agent_after F obj (map strip lines)) (strip line)
  = (inl text, obj') ->
  exists pre,
    runs pre = map (fun l => (0%nat, strip l)) lines
    /\ errors pre = []
    /\ forall rest,
        run_script F env (mkArgs true p) (map Line lines ++ Line line :: rest)
        = mkOutcome (pre ++ [Stdout (newline +:+ "You: ");
                             Run 0%nat (strip line);
                             Traceback text]) 1.
Proof.
  intros Hkey Himp Hb Hlines Hans Hs Hr.
  destruct (loop_prefix F lines Hlines (mkAgent 0 obj) Hans)
    as (pre & Hruns & Herr & Heq).
  exists ([Call Fmain; Call Finteractive_loop] ++ build_events env 0
          ++ [Stdout (banner +:+ newline)] ++ pre).
  split; [|split].
  - simpl. exact Hruns.
  - simpl. exact Herr.
  - intros rest. unfold run_script.
    rewrite (script_is_main F env _ _ 0 Hkey Himp).
    rewrite (main_interactive F env p _ obj 0 Hb), Heq. simpl agent_id.
    simpl agent_obj.
    rewrite (loop_turn_raises
               F (mkAgent 0 (agent_after F obj (map strip lines)))
               line rest 1 text obj' Hs Hr). simpl.
    rewrite <- !app_assoc. reflexivity.
Qed.

Lemma X13_witness :
  exists pre,
    runs pre = [(0%nat, "a")]
    /\ errors pre = []
    /\ forall rest,
        run_script bare_fw key_env (mkArgs true "")
                   (map Line ["a"] ++ Line "b" :: rest)
        = mkOutcome (pre ++ [Stdout (newline +:+ "You: ");
                             Run 0%nat (strip "b");
                             Traceback "RuntimeError: connection lost"]) 1.
Proof.
  assert (Hb : builds bare_fw key_env 0%nat)
    by (exists tt; split; reflexivity).
  exact (X13_raising_turn_ends_process
           bare_fw key_env "" ["a"] "b" "RuntimeError: connection lost"
           0%nat 2%nat key_env_has_key eq_refl Hb
           ltac:(repeat constructor) eq_refl eq_refl eq_refl).
Defined.



(** X15.  A default stands in for a variable that is unset or empty, not
    for one that trimming empties: a [GOOGLE_MODEL] of whitespace only
    gives the empty model name and a base URL of slashes only gives the
    empty base URL. *)
Theorem X15_emptied_settings_stay_empty (env : gmap string string)
        (v : string) :
  v <> "" ->
  (all_chars isspace v = true -> env !! "GOOGLE_MODEL" = Some v ->
   MODEL_NAME env = "")
  /\ (all_chars (fun c => mem_char c "/") v = true ->
      env !! "GOOGLE_OPENAI_COMPAT_BASE_URL" = Some v ->
      BASE_URL env = "").
Proof.
  intros Hne. apply truthy_true in Hne. split; intros Hall Hv.
  - unfold MODEL_NAME, getenv, or_else. rewrite Hv, Hne.
    apply strip_blank, Hall.
  - unfold BASE_URL, getenv, or_else, rstrip. rewrite Hv, Hne.
    apply rstrip_by_all, Hall.
Qed.

Lemma X15_witness :
  MODEL_NAME blank_values_env = "" /\ BASE_URL blank_values_env = "".
Proof.
  split.
  - apply (proj1 (X15_emptied_settings_stay_empty
                    blank_values_env "  " ltac:(discriminate)) eq_refl).
    vm_compute. reflexivity.
  - apply (proj2 (X15_emptied_settings_stay_empty
                    blank_values_env "//" ltac:(discriminate)) eq_refl).
    vm_compute. reflexivity.
Defined.



(** X17.  Stray whitespace around the key or around a model name, and
    slashes after a base URL, do not change the run. *)
Theorem X17_stray_padding_changes_nothing (F : Framework)
        (env : gmap string string) (args : Namespace)
        (stdin : list StdinEvent) (before v after slashes : string) :
  all_chars isspace before = true ->
  all_chars isspace after = true ->
  all_chars (fun c => mem_char c "/") slashes = true ->
  v <> "" ->
  run_script F (<["GOOGLE_API_KEY" := before +:+ v +:+ after]> env) args stdin
  = run_script F (<["GOOGLE_API_KEY" := v]> env) args stdin
  /\ run_script F (<["GOOGLE_MODEL" := before +:+ v +:+ after]> env) args stdin
     = run_script F (<["GOOGLE_MODEL" := v]> env) args stdin
  /\ run_script F (<["GOOGLE_OPENAI_COMPAT_BASE_URL" := v +:+ slashes]> env)
                args stdin
     = run_script F (<["GOOGLE_OPENAI_COMPAT_BASE_URL" := v]> env) args stdin.
Proof.
  intros Hb Ha Hs Hv.
  assert (Htr : forall a b, truthy b = true -> truthy (a +:+ b) = true).
  { intros [|c a] b H; [exact H|reflexivity]. }
  assert (Htl : forall a b, truthy a = true -> truthy (a +:+ b) = true).
  { intros [|c a] b H; [discriminate|reflexivity]. }
  apply truthy_true in Hv.
  split; [|split]; apply script_reads_four_globals;
    unfold GOOGLE_API_KEY, MODEL_NAME, BASE_URL, SYSTEM_PROMPT, getenv,
      getenv_or;
    rewrite ?lookup_insert_eq;
    rewrite ?lookup_insert_ne by discriminate;
    try reflexivity; simpl.
  - apply strip_padding; assumption.
  - unfold or_else. rewrite (Htr before _ (Htl v after Hv)), Hv.
    apply strip_padding; assumption.
  - unfold or_else, rstrip. rewrite (Htl v slashes Hv), Hv.
    apply rstrip_by_app_all, Hs.
Qed.

Lemma X17_witness :
  run_script echo_fw (<["GOOGLE_API_KEY" := " " +:+ "k-9" +:+ newline]> key_env)
             (mkArgs false "hi") []
  = run_script echo_fw (<["GOOGLE_API_KEY" := "k-9"]> key_env)
               (mkArgs false "hi") [].
Proof.
  assert (Hv : "k-9" <> "") by discriminate.
  exact (proj1 (X17_stray_padding_changes_nothing
                  echo_fw key_env (mkArgs false "hi") [] " " "k-9" newline "//"
                  eq_refl eq_refl eq_refl Hv)).
Defined.

(** X18.  Every failure but one says something on standard error: a run
    that ends with exit status 1 and nothing on standard error is the
    run with no mode selected, which printed the usage text. *)
Theorem X18_only_usage_fails_silently (F : Framework)
        (env : gmap string string) (args : Namespace)
        (stdin : list StdinEvent) :
  exit_status (run_script F env args stdin) = 1 ->
  errors (events (run_script F env args stdin)) = [] ->
  interactive args = false /\ prompt args = ""
  /\ events (run_script F env args stdin)
     = Call Fmain :: map (fun l => Stdout (l +:+ newline)) usage.
Proof.
  destruct (run_cases F env args stdin)
    as [Hk|t Hk Hi|Hk Hi Hm Hp|t Hk Hi Hm Hc|c t Hk Hi Hm Hc Ha
        |obj evs Hk Hi Hm Hb Ht|obj evs t Hk Hi Hm Hb Ht
        |obj obj' t Hk Hi Hm Hp Hb Hr|obj obj' r Hk Hi Hm Hp Hb Hr];
    simpl; rewrite ?errors_app; simpl; intros Hst Herr;
    try discriminate; auto.
  destruct (errors evs); discriminate.
Qed.

Lemma X18_witness :
  exit_status (run_script echo_fw key_env (mkArgs false "") [Line "x"]) = 1
  /\ errors (events (run_script echo_fw key_env (mkArgs false "") [Line "x"]))
     = []
  /\ stdout (events (run_script echo_fw key_env (mkArgs false "") [Line "x"]))
     = map (fun l => l +:+ newline) usage.
Proof.
  split; [reflexivity|]. split; [reflexivity|].
  destruct (X18_only_usage_fails_silently
              echo_fw key_env (mkArgs false "") [Line "x"] eq_refl eq_refl)
    as (_ & _ & ->).
  reflexivity.
Defined.

End Extras.
